(** * cstable: the table reader (eventql/io/cstable/CSTableReader.cc)

    A shallow embedding of [CSTableReader.cc]: the two column dispatchers
    [openColumnV1] and [openColumnV2], [CSTableReader::openFile], the
    constructor that builds the by-id and by-name indices, the destructor and
    the query methods, followed by the properties of the reader that the
    specification states.

    Conventions.
    - Unsigned integers of the source ([uint16_t], [uint32_t], [uint64_t],
      [size_t], enum values) are [N]; the one cast of the file,
      [(uint32_t) x], is written out as [x mod 2^32]. The descriptor is a C
      [int] and is modelled in [Z].
    - [RAISEF]/[RCHECK] throw: fallible code returns in [Res], and a throw
      leaves the function at once.
    - The two index members are finite maps ([gmap]) from the key to the
      decoder; a [RefPtr<ColumnReader>] is modelled by the decoder it points
      to.
    - Non-const member functions thread the reader ([self]) explicitly and
      hand it back; const member functions are plain functions of [self].
    - What the file takes from other translation units (the enumerators,
      [File::openFile], [readHeader], the decoders' [encoding()] and
      [type()]) is either a parameter or modelled from the specification, and
      says so where it is declared. *)

From Stdlib Require Import ZArith NArith String List.
From stdpp Require Import base option list gmap strings.

Local Open Scope string_scope.

(** ** Exceptions and the result monad *)

(** [RAISEF(kRuntimeError, fmt, n)] and [RAISEF(kNotFoundError, fmt, s)]
    carry the format string and its one argument; [kCheckFailed] is what a
    failed [RCHECK(cond, msg)] throws, and [kIOError] stands for whatever
    [File::openFile] and [readHeader] throw. *)
Inductive Exception : Type :=
| kRuntimeError (fmt : string) (arg : N)
| kNotFoundError (fmt : string) (arg : string)
| kCheckFailed (msg : string)
| kIOError (msg : string).

Inductive Res (A : Type) : Type :=
| Ok (a : A)
| Raise (e : Exception).
Arguments Ok {A} a.
Arguments Raise {A} e.

#[global] Instance Res_bind : MBind Res := λ A B k r,
  match r with
  | Ok a => k a
  | Raise e => Raise e
  end.

(** A [for] loop that appends [f x] to a vector for every [x], any throw of
    [f] leaving the loop. *)
Fixpoint emplace_back_each {A B : Type} (f : A → Res B) (l : list A) : Res (list B) :=
  match l with
  | [] => Ok []
  | x :: l' => y ← f x; ys ← emplace_back_each f l'; Ok (y :: ys)
  end.

(** [(uint32_t) x] *)
Definition to_uint32 (x : N) : N := (x mod 2 ^ 32)%N.

(** ** Data model *)

(** The enumerators of [ColumnEncoding] and [ColumnType] that the reader
    names. Both enums are declared in [cstable.h], outside the sources at
    hand, so the numeric values of the enumerators are a parameter of the
    model; a value of either enum is its numeric tag. *)
Record EnumTags : Type := {
  BOOLEAN_BITPACKED : N;
  UINT32_BITPACKED : N;
  UINT32_PLAIN : N;
  UINT64_PLAIN : N;
  UINT64_LEB128 : N;
  FLOAT_IEEE754 : N;
  STRING_PLAIN : N;
  UNSIGNED_INT : N
}.

(** The case labels of the [switch] in [openColumnV1]. *)
Definition storage_case_labels (tags : EnumTags) : list N :=
  [BOOLEAN_BITPACKED tags; UINT32_BITPACKED tags; UINT32_PLAIN tags;
   UINT64_PLAIN tags; UINT64_LEB128 tags; FLOAT_IEEE754 tags;
   STRING_PLAIN tags].

(** [ColumnConfig], with the members the reader uses. The struct is declared
    in [cstable.h]; ids are 32-bit, level maxima 16-bit, offsets and sizes
    64-bit unsigned integers, and the two types are enum values. *)
Record ColumnConfig : Type := {
  column_id : N;
  column_name : string;
  storage_type : N;
  logical_type : N;
  rlevel_max : N;
  dlevel_max : N;
  body_offset : N;
  body_size : N
}.

(** The two versions [openFile] switches over. *)
Inductive BinaryFormatVersion : Type := v0_1_0 | v0_2_0.

(** [header.columns], [header.num_rows] and [metablock.num_rows]. *)
Record FileHeader : Type := {
  header_columns : list ColumnConfig;
  header_num_rows : N
}.

Record MetaBlock : Type := {
  metablock_num_rows : N
}.

(** [File]: an open descriptor. [releaseFD] hands the descriptor out. *)
Record File : Type := { fd : Z }.

Definition releaseFD (file : File) : Z := fd file.

(** [MmappedFile(std::move(file))]: the mapping takes the file over. *)
Record MmappedFile : Type := { mmap_file : File }.

(** A pointer into a mapping, as [structAt<void>(offset)] returns it. *)
Record Ptr : Type := { ptr_mmap : MmappedFile; ptr_offset : N }.

Definition structAt (mmap : MmappedFile) (offset : N) : Ptr :=
  {| ptr_mmap := mmap; ptr_offset := offset |}.

(** [PageManager(fd, offset, {})]: the third argument is the empty
    initialiser at its only construction site. *)
Record PageManager : Type := { pm_fd : Z; pm_offset : N }.

(** The roles of a page stream; [openColumnV2] names [RLEVEL] only. *)
Inductive PageIndexEntryType : Type := RLEVEL | DLEVEL | DATA.

Record PageIndexKey : Type := {
  key_column_id : N;
  entry_type : PageIndexEntryType
}.

(** [UnsignedIntPageReader], of which [UInt64PageReader(page_mgr)] is the
    one implementation constructed here. *)
Inductive UnsignedIntPageReader : Type :=
| UInt64PageReader (page_mgr : PageManager).

(** The seven decoder classes of the legacy layout. *)
Inductive V1ReaderClass : Type :=
| BooleanColumnReader
| BitPackedIntColumnReader
| UInt32ColumnReader
| UInt64ColumnReader
| LEB128ColumnReader
| DoubleColumnReader
| StringColumnReader.

(** A decoder object is what its constructor was given: a v1 decoder its
    class and [(rmax, dmax, cdata, csize)] plus the mapping [storeMmap]
    stores, the v2 decoder [(c, rlevel_reader, dlevel_reader, page_mgr)]. *)
Inductive ColumnReader : Type :=
| V1ColumnReader (cls : V1ReaderClass) (rmax dmax : N) (cdata : Ptr)
    (csize : N) (mmap : option MmappedFile)
| UnsignedIntColumnReader (c : ColumnConfig)
    (rlevel_reader dlevel_reader : option UnsignedIntPageReader)
    (page_mgr : PageManager).

Definition storeMmap (mmap : MmappedFile) (reader : ColumnReader) : ColumnReader :=
  match reader with
  | V1ColumnReader cls rmax dmax cdata csize _ =>
      V1ColumnReader cls rmax dmax cdata csize (Some mmap)
  | UnsignedIntColumnReader _ _ _ _ => reader
  end.

(** The table reader's members. [numRecords] returns [num_rows_] as a
    [size_t], which has the 64 bits of the member. *)
Record CSTableReader : Type := {
  version_ : BinaryFormatVersion;
  page_mgr_ : option PageManager;
  columns_ : list ColumnConfig;
  column_readers_by_id_ : gmap N ColumnReader;
  column_readers_by_name_ : gmap string ColumnReader;
  num_rows_ : N;
  fd_ : Z
}.

(** Modelled from the spec: the container type of the two index members,
    declared in [CSTableReader.h], outside the sources at hand. The spec has
    the decoders "keyed by column name" and "by column id", a lookup
    returning "one designated reader": a map with unique keys, which the code
    uses through [emplace], [find], [end] and [->second]. On such a map
    [m.emplace(k, v)] inserts only when [k] is not yet a key. *)
Definition emplace `{Countable K} {V : Type} (k : K) (v : V) (m : gmap K V) : gmap K V :=
  match m !! k with
  | Some _ => m
  | None => <[k := v]> m
  end.

(** ** The column dispatchers *)

Section Dispatch.
Variable tags : EnumTags.

Definition openColumnV1 (c : ColumnConfig) (mmap : MmappedFile) : Res ColumnReader :=
  let csize := body_size c in
  let cdata := structAt mmap (body_offset c) in
  let rmax := rlevel_max c in
  let dmax := dlevel_max c in
  let t := storage_type c in
  if (t =? BOOLEAN_BITPACKED tags)%N then
    Ok (V1ColumnReader BooleanColumnReader rmax dmax cdata csize None)
  else if (t =? UINT32_BITPACKED tags)%N then
    Ok (V1ColumnReader BitPackedIntColumnReader rmax dmax cdata csize None)
  else if (t =? UINT32_PLAIN tags)%N then
    Ok (V1ColumnReader UInt32ColumnReader rmax dmax cdata csize None)
  else if (t =? UINT64_PLAIN tags)%N then
    Ok (V1ColumnReader UInt64ColumnReader rmax dmax cdata csize None)
  else if (t =? UINT64_LEB128 tags)%N then
    Ok (V1ColumnReader LEB128ColumnReader rmax dmax cdata csize None)
  else if (t =? FLOAT_IEEE754 tags)%N then
    Ok (V1ColumnReader DoubleColumnReader rmax dmax cdata csize None)
  else if (t =? STRING_PLAIN tags)%N then
    Ok (V1ColumnReader StringColumnReader rmax dmax cdata csize None)
  else
    Raise (kRuntimeError "unsupported column type: $0" (to_uint32 (storage_type c))).

Definition openColumnV2 (c : ColumnConfig) (page_mgr : PageManager) : Res ColumnReader :=
  let rlevel_reader : option UnsignedIntPageReader :=
    if (0 <? rlevel_max c)%N then
      let rlevel_idx_key :=
        {| key_column_id := column_id c; entry_type := RLEVEL |} in
      Some (UInt64PageReader page_mgr)
    else None in
  let dlevel_reader : option UnsignedIntPageReader := None in
  if (logical_type c =? UNSIGNED_INT tags)%N then
    Ok (UnsignedIntColumnReader c rlevel_reader dlevel_reader page_mgr)
  else
    Raise (kRuntimeError "unsupported column type: $0" (to_uint32 (storage_type c))).

End Dispatch.

(** ** Construction and destruction *)

(** The loop of the constructor: column [i] goes into the id index when its
    id is positive, and always into the name index. The size check before the
    loop makes the two vectors run in lockstep. *)
Fixpoint index_columns (l : list (ColumnConfig * ColumnReader))
    (by_id : gmap N ColumnReader) (by_name : gmap string ColumnReader)
    : gmap N ColumnReader * gmap string ColumnReader :=
  match l with
  | [] => (by_id, by_name)
  | (c, r) :: l' =>
      index_columns l'
        (if (0 <? column_id c)%N then emplace (column_id c) r by_id else by_id)
        (emplace (column_name c) r by_name)
  end.

Definition CSTableReader_new (version : BinaryFormatVersion)
    (page_mgr : option PageManager) (cols : list ColumnConfig)
    (column_readers : list ColumnReader) (n_rows : N) (descr : Z)
    : Res CSTableReader :=
  if decide (length column_readers = length cols) then
    let idx := index_columns (zip cols column_readers) ∅ ∅ in
    Ok {| version_ := version;
          page_mgr_ := page_mgr;
          columns_ := cols;
          column_readers_by_id_ := idx.1;
          column_readers_by_name_ := idx.2;
          num_rows_ := n_rows;
          fd_ := descr |}
  else Raise (kCheckFailed "illegal column list").

(** [~CSTableReader]: the system calls the destructor body makes. *)
Inductive Syscall : Type := close (descr : Z).

Definition CSTableReader_destroy (self : CSTableReader) : list Syscall :=
  if (0 <? fd_ self)%Z then [close (fd_ self)] else [].

(** ** Opening a file *)

Section OpenFile.
Variable tags : EnumTags.

(** [File::openFile] and [readHeader] belong to other translation units;
    [openFile] is modelled over what they return. [readHeader] also fills
    in a free-page index, which [openFile] never reads. *)
Variable File_openFile : string → Res File.
Variable readHeader : File → Res (BinaryFormatVersion * FileHeader * MetaBlock).

Definition openFile (filename : string) : Res CSTableReader :=
  file ← File_openFile filename;
  parsed ← readHeader file;
  let '(version, header, metablock) := parsed in
  match version with
  | v0_1_0 =>
      let mmap := {| mmap_file := file |} in
      column_readers ←
        emplace_back_each
          (λ col, reader ← openColumnV1 tags col mmap; Ok (storeMmap mmap reader))
          (header_columns header);
      CSTableReader_new version None (header_columns header) column_readers
        (header_num_rows header) (-1)
  | v0_2_0 =>
      let page_mgr := {| pm_fd := fd file; pm_offset := 0 |} in
      column_readers ←
        emplace_back_each (λ col, openColumnV2 tags col page_mgr)
          (header_columns header);
      CSTableReader_new version (Some page_mgr) (header_columns header)
        column_readers (metablock_num_rows metablock) (releaseFD file)
  end.
End OpenFile.

(** ** Decoder capabilities and query methods *)

Section Capabilities.
Variable tags : EnumTags.

(** [type()] of a v1 decoder. The v1 constructors receive no logical type,
    so whatever a v1 class answers is a function of the decoder object. *)
Variable v1_type : ColumnReader → N.

(** Modelled from the spec: [ColumnReader::encoding()], whose
    implementations are in the [columns/] headers, outside the sources at
    hand. Each v1 storage tag has its one concrete decoder, which reports
    that storage encoding; the v2 decoder is constructed with the column's
    config and reports the [storage_type] recorded there. *)
Definition encoding (d : ColumnReader) : N :=
  match d with
  | V1ColumnReader BooleanColumnReader _ _ _ _ _ => BOOLEAN_BITPACKED tags
  | V1ColumnReader BitPackedIntColumnReader _ _ _ _ _ => UINT32_BITPACKED tags
  | V1ColumnReader UInt32ColumnReader _ _ _ _ _ => UINT32_PLAIN tags
  | V1ColumnReader UInt64ColumnReader _ _ _ _ _ => UINT64_PLAIN tags
  | V1ColumnReader LEB128ColumnReader _ _ _ _ _ => UINT64_LEB128 tags
  | V1ColumnReader DoubleColumnReader _ _ _ _ _ => FLOAT_IEEE754 tags
  | V1ColumnReader StringColumnReader _ _ _ _ _ => STRING_PLAIN tags
  | UnsignedIntColumnReader c _ _ _ => storage_type c
  end.

(** Modelled from the spec: [ColumnReader::type()], likewise outside the
    sources at hand. The v2 decoder reports the [logical_type] of the
    config it was constructed with; a v1 decoder answers [v1_type]. *)
Definition type (d : ColumnReader) : N :=
  match d with
  | V1ColumnReader _ _ _ _ _ _ => v1_type d
  | UnsignedIntColumnReader c _ _ _ => logical_type c
  end.

Definition getColumnReader (name : string) (self : CSTableReader)
    : Res ColumnReader * CSTableReader :=
  match column_readers_by_name_ self !! name with
  | None => (Raise (kNotFoundError "column not found: $0" name), self)
  | Some col => (Ok col, self)
  end.

Definition getColumnEncoding (name : string) (self : CSTableReader)
    : Res N * CSTableReader :=
  let '(col, self) := getColumnReader name self in
  (d ← col; Ok (encoding d), self).

Definition getColumnType (name : string) (self : CSTableReader)
    : Res N * CSTableReader :=
  let '(col, self) := getColumnReader name self in
  (d ← col; Ok (type d), self).

Definition columns (self : CSTableReader) : list ColumnConfig :=
  columns_ self.

Definition hasColumn (self : CSTableReader) (name : string) : bool :=
  match column_readers_by_name_ self !! name with
  | None => false
  | Some _ => true
  end.

Definition numRecords (self : CSTableReader) : N :=
  num_rows_ self.

End Capabilities.

(** ** Sequences of query calls

    A call of one of the six query methods, what it returns, and a run of
    calls one after the other on the reader the previous call left. *)

Inductive Query : Type :=
| call_getColumnReader (name : string)
| call_getColumnEncoding (name : string)
| call_getColumnType (name : string)
| call_columns
| call_hasColumn (name : string)
| call_numRecords.

Inductive Answer : Type :=
| ret_reader (a : Res ColumnReader)
| ret_encoding (a : Res N)
| ret_type (a : Res N)
| ret_columns (a : list ColumnConfig)
| ret_bool (a : bool)
| ret_count (a : N).

Section Queries.
Variable tags : EnumTags.
Variable v1_type : ColumnReader → N.

Definition run_query (q : Query) (self : CSTableReader) : Answer * CSTableReader :=
  match q with
  | call_getColumnReader s => prod_map ret_reader id (getColumnReader s self)
  | call_getColumnEncoding s => prod_map ret_encoding id (getColumnEncoding tags s self)
  | call_getColumnType s => prod_map ret_type id (getColumnType v1_type s self)
  | call_columns => (ret_columns (columns self), self)
  | call_hasColumn s => (ret_bool (hasColumn self s), self)
  | call_numRecords => (ret_count (numRecords self), self)
  end.

Fixpoint run_queries (qs : list Query) (self : CSTableReader)
    : list Answer * CSTableReader :=
  match qs with
  | [] => ([], self)
  | q :: qs' =>
      let '(a, self') := run_query q self in
      let '(answers, self'') := run_queries qs' self' in
      (a :: answers, self'')
  end.

End Queries.

(** ** Notions used in the statements *)

(** The first entry of the column list with a given name, and the first one
    with a given positive id. *)
Fixpoint first_named (s : string) (l : list (ColumnConfig * ColumnReader)) : option ColumnReader :=
  match l with
  | [] => None
  | (c, r) :: l' => if decide (column_name c = s) then Some r else first_named s l'
  end.

Fixpoint first_with_id (k : N) (l : list (ColumnConfig * ColumnReader)) : option ColumnReader :=
  match l with
  | [] => None
  | (c, r) :: l' =>
      if decide ((0 < column_id c)%N ∧ column_id c = k) then Some r
      else first_with_id k l'
  end.



(** The last entry of the column list with a given name. *)
Definition last_named (s : string) (l : list (ColumnConfig * ColumnReader)) : option ColumnReader :=
  first_named s (reverse l).

(** The error of [getColumnReader]. *)
Definition not_found (s : string) : Exception :=
  kNotFoundError "column not found: $0" s.

(** The case label in front of the arm of [openColumnV1] that constructs a
    decoder of class [cls]. *)
Definition class_label (tags : EnumTags) (cls : V1ReaderClass) : N :=
  match cls with
  | BooleanColumnReader => BOOLEAN_BITPACKED tags
  | BitPackedIntColumnReader => UINT32_BITPACKED tags
  | UInt32ColumnReader => UINT32_PLAIN tags
  | UInt64ColumnReader => UINT64_PLAIN tags
  | LEB128ColumnReader => UINT64_LEB128 tags
  | DoubleColumnReader => FLOAT_IEEE754 tags
  | StringColumnReader => STRING_PLAIN tags
  end.

(** The decoder [openColumnV2] constructs for a column of logical type
    [UNSIGNED_INT]. *)
Definition v2_decoder (c : ColumnConfig) (page_mgr : PageManager) : ColumnReader :=
  UnsignedIntColumnReader c
    (if (0 <? rlevel_max c)%N then Some (UInt64PageReader page_mgr) else None)
    None page_mgr.

(** The decoder of class [cls] that the v0_1_0 branch of [openFile] leaves in
    the vector for a column: constructed over the column's body range in the
    mapping, the mapping stored in it. *)
Definition v1_decoder (cls : V1ReaderClass) (c : ColumnConfig) (mmap : MmappedFile) : ColumnReader :=
  V1ColumnReader cls (rlevel_max c) (dlevel_max c)
    (structAt mmap (body_offset c)) (body_size c) (Some mmap).

(** The decoder [d] is the one [openFile] builds for column [c] of a file of
    the given version. *)
Definition built_for (tags : EnumTags) (file : File) (version : BinaryFormatVersion)
    (c : ColumnConfig) (d : ColumnReader) : Prop :=
  match version with
  | v0_1_0 =>
      ∃ cls, storage_type c = class_label tags cls ∧
             d = v1_decoder cls c {| mmap_file := file |}
  | v0_2_0 =>
      logical_type c = UNSIGNED_INT tags ∧
      d = v2_decoder c {| pm_fd := fd file; pm_offset := 0 |}
  end.

(** The column config [c] with another logical type recorded. *)
Definition with_logical_type (t : N) (c : ColumnConfig) : ColumnConfig :=
  {| column_id := column_id c; column_name := column_name c;
     storage_type := storage_type c; logical_type := t;
     rlevel_max := rlevel_max c; dlevel_max := dlevel_max c;
     body_offset := body_offset c; body_size := body_size c |}.

(** ** Sample data

    A tag assignment with pairwise distinct storage tags and a few columns,
    decoders and files, on which the model is run in the examples below. *)

Definition sample_tags : EnumTags :=
  {| BOOLEAN_BITPACKED := 1; UINT32_BITPACKED := 10; UINT32_PLAIN := 11;
     UINT64_PLAIN := 12; UINT64_LEB128 := 13; FLOAT_IEEE754 := 14;
     STRING_PLAIN := 100; UNSIGNED_INT := 2 |}.

Definition mk_column (id : N) (name : string) (storage logical rmax dmax : N) : ColumnConfig :=
  {| column_id := id; column_name := name; storage_type := storage;
     logical_type := logical; rlevel_max := rmax; dlevel_max := dmax;
     body_offset := 64; body_size := 24 |}.

Definition sample_file : File := {| fd := 7 |}.
Definition sample_page_mgr : PageManager := {| pm_fd := 7; pm_offset := 0 |}.
Definition sample_mmap : MmappedFile := {| mmap_file := sample_file |}.

(** A file whose header and metadata block disagree on the row count. *)
Definition sample_header (cols : list ColumnConfig) : FileHeader :=
  {| header_columns := cols; header_num_rows := 3 |}.
Definition sample_metablock : MetaBlock := {| metablock_num_rows := 5 |}.

Definition sample_open (file : File) : string → Res File := λ _, Ok file.
Definition sample_readHeader (version : BinaryFormatVersion)
    (cols : list ColumnConfig)
    : File → Res (BinaryFormatVersion * FileHeader * MetaBlock) :=
  λ _, Ok (version, sample_header cols, sample_metablock).

(** Columns: id, name, storage tag, logical tag, rlevel_max, dlevel_max. *)
Definition col_id : ColumnConfig := mk_column 1 "id" 12 2 0 0.
Definition col_tags : ColumnConfig := mk_column 2 "tags" 100 4 1 1.
Definition col_anon : ColumnConfig := mk_column 0 "anon" 13 2 0 0.
Definition col_id_again : ColumnConfig := mk_column 3 "id" 13 2 1 0.

Definition col_nested : ColumnConfig := mk_column 5 "nested" 12 2 1 1.

(** A storage tag outside the dispatch table. *)
Definition col_unknown_storage : ColumnConfig := mk_column 4 "blob" 255 2 0 0.

Definition sample_v1_columns : list ColumnConfig := [col_id; col_tags].
Definition sample_v2_columns : list ColumnConfig := [col_id; col_nested; col_anon].

(** A file that was opened on descriptor 0. *)
Definition stdin_file : File := {| fd := 0 |}.

(** The decoders [openColumnV2] builds for the sample columns. *)
Definition decoder_id : ColumnReader :=
  UnsignedIntColumnReader col_id None None sample_page_mgr.
Definition decoder_nested : ColumnReader :=
  UnsignedIntColumnReader col_nested (Some (UInt64PageReader sample_page_mgr))
    None sample_page_mgr.
Definition decoder_anon : ColumnReader :=
  UnsignedIntColumnReader col_anon None None sample_page_mgr.
Definition decoder_id_again : ColumnReader :=
  UnsignedIntColumnReader col_id_again (Some (UInt64PageReader sample_page_mgr))
    None sample_page_mgr.

Definition sample_new (cols : list ColumnConfig) (rds : list ColumnReader) : Res CSTableReader :=
  CSTableReader_new v0_2_0 (Some sample_page_mgr) cols rds 5 7.

(** Two v1 columns that differ in the recorded logical type only. *)
Definition col_leb_uint : ColumnConfig := mk_column 1 "t" 13 2 0 0.
Definition col_leb_time : ColumnConfig := mk_column 1 "t" 13 6 0 0.

Definition sample_queries : list Query :=
  [call_columns; call_getColumnReader "missing"; call_getColumnEncoding "id";
   call_hasColumn "tags"; call_getColumnType "tags"; call_numRecords;
   call_columns].

(** * Properties

    ** Auxiliary facts *)

Lemma emplace_lookup `{Countable K} {V : Type} (k k' : K) (v : V) (m : gmap K V) :
  emplace k v m !! k' =
  match m !! k' with
  | Some x => Some x
  | None => if decide (k = k') then Some v else None
  end.
Proof.
  unfold emplace. destruct (m !! k) as [x|] eqn:Hk.
  - destruct (m !! k') eqn:Hk'; [done|]. case_decide; [congruence|done].
  - rewrite lookup_insert. case_decide as Hd.
    + subst k'. by rewrite Hk.
    + by destruct (m !! k').
Qed.

Lemma index_columns_by_name l by_id by_name s :
  (index_columns l by_id by_name).2 !! s =
  match by_name !! s with
  | Some d => Some d
  | None => first_named s l
  end.
Proof.
  revert by_id by_name. induction l as [|[c r] l IH]; intros by_id by_name; simpl.
  - by destruct (by_name !! s).
  - rewrite IH, emplace_lookup. destruct (by_name !! s); [done|].
    by case_decide.
Qed.

Lemma index_columns_by_id l by_id by_name k :
  (index_columns l by_id by_name).1 !! k =
  match by_id !! k with
  | Some d => Some d
  | None => first_with_id k l
  end.
Proof.
  revert by_id by_name. induction l as [|[c r] l IH]; intros by_id by_name; simpl.
  - by destruct (by_id !! k).
  - rewrite IH. destruct (0 <? column_id c)%N eqn:Hpos.
    + apply N.ltb_lt in Hpos. rewrite emplace_lookup.
      destruct (by_id !! k); [done|].
      case_decide as Hk; case_decide as Hd; try done.
      * exfalso. apply Hd. by split.
      * by destruct Hd.
    + apply N.ltb_ge in Hpos. destruct (by_id !! k); [done|].
      case_decide as Hd; [|done]. destruct Hd. lia.
Qed.

Lemma first_named_lookup s l i c d :
  l !! i = Some (c, d) →
  column_name c = s →
  (∀ j c' d', (j < i)%nat → l !! j = Some (c', d') → column_name c' ≠ s) →
  first_named s l = Some d.
Proof.
  revert i. induction l as [|[c0 d0] l IH]; intros i Hi Hs Hfirst; [done|].
  simpl. destruct i as [|i]; simpl in Hi.
  - simplify_eq. by rewrite decide_True.
  - rewrite decide_False.
    + apply (IH i); [done..|]. intros j c' d' Hj Hl.
      apply (Hfirst (S j) c' d'); [lia|done].
    + apply (Hfirst 0%nat c0 d0); [lia|done].
Qed.

Lemma first_named_Some s l d :
  first_named s l = Some d →
  ∃ i c, l !! i = Some (c, d) ∧ column_name c = s.
Proof.
  induction l as [|[c0 d0] l IH]; simpl; [done|].
  case_decide as Hd.
  - intros [= ->]. by exists 0%nat, c0.
  - intros (i & c & Hi & Hc)%IH. by exists (S i), c.
Qed.

Lemma first_named_None s l :
  first_named s l = None ↔ ∀ c d, (c, d) ∈ l → column_name c ≠ s.
Proof.
  induction l as [|[c0 d0] l IH]; simpl.
  - split; [|done]. intros _ c d Hin. by apply elem_of_nil in Hin.
  - case_decide as Hd.
    + split; [done|]. intros Hall. exfalso. apply (Hall c0 d0); [left|done].
    + rewrite IH. split.
      * intros Hall c d [[= -> ->]|Hin]%elem_of_cons; eauto.
      * intros Hall c d Hin. apply (Hall c d). by right.
Qed.

Lemma first_with_id_Some k l d :
  first_with_id k l = Some d →
  ∃ i c, l !! i = Some (c, d) ∧ column_id c = k ∧ (0 < k)%N.
Proof.
  induction l as [|[c0 d0] l IH]; simpl; [done|].
  case_decide as Hd.
  - intros [= ->]. destruct Hd as [Hpos <-]. by exists 0%nat, c0.
  - intros (i & c & Hi & Hc)%IH. by exists (S i), c.
Qed.


Lemma emplace_back_each_Ok {A B : Type} (f : A → Res B) l k :
  emplace_back_each f l = Ok k → Forall2 (λ x y, f x = Ok y) l k.
Proof.
  revert k. induction l as [|x l IH]; intros k; simpl.
  - intros [= <-]. constructor.
  - destruct (f x) as [y|e] eqn:Hfx; simpl; [|done].
    destruct (emplace_back_each f l) as [ys|e] eqn:Hl; simpl; [|done].
    intros [= <-]. constructor; [done|]. by apply IH.
Qed.

Lemma CSTableReader_new_Ok version page_mgr cols column_readers n_rows descr r :
  CSTableReader_new version page_mgr cols column_readers n_rows descr = Ok r →
  length column_readers = length cols ∧
  r = {| version_ := version;
         page_mgr_ := page_mgr;
         columns_ := cols;
         column_readers_by_id_ := (index_columns (zip cols column_readers) ∅ ∅).1;
         column_readers_by_name_ := (index_columns (zip cols column_readers) ∅ ∅).2;
         num_rows_ := n_rows;
         fd_ := descr |}.
Proof.
  unfold CSTableReader_new. case_decide; [|done]. by intros [= <-].
Qed.

(** What a successful [openFile] went through. *)
Lemma openFile_Ok tags File_openFile readHeader filename r :
  openFile tags File_openFile readHeader filename = Ok r →
  ∃ file version header metablock column_readers,
    File_openFile filename = Ok file ∧
    readHeader file = Ok (version, header, metablock) ∧
    match version with
    | v0_1_0 =>
        Forall2
          (λ c d, ∃ d0, openColumnV1 tags c {| mmap_file := file |} = Ok d0 ∧
                        d = storeMmap {| mmap_file := file |} d0)
          (header_columns header) column_readers ∧
        CSTableReader_new v0_1_0 None (header_columns header) column_readers
          (header_num_rows header) (-1) = Ok r
    | v0_2_0 =>
        Forall2
          (λ c d, openColumnV2 tags c {| pm_fd := fd file; pm_offset := 0 |} = Ok d)
          (header_columns header) column_readers ∧
        CSTableReader_new v0_2_0
          (Some {| pm_fd := fd file; pm_offset := 0 |})
          (header_columns header) column_readers
          (metablock_num_rows metablock) (fd file) = Ok r
    end.
Proof.
  unfold openFile. destruct (File_openFile filename) as [file|e] eqn:Hopen; simpl; [|done].
  destruct (readHeader file) as [[[version header] metablock]|e] eqn:Hhdr; simpl; [|done].
  destruct version.
  - destruct (emplace_back_each _ _) as [rds|e] eqn:Hloop; simpl; [|done].
    intros Hnew. exists file, v0_1_0, header, metablock, rds.
    repeat split; [done| |done].
    apply emplace_back_each_Ok in Hloop.
    eapply Forall2_impl; [exact Hloop|]. intros c d. simpl.
    destruct (openColumnV1 tags c _) as [d0|e]; simpl; [|done].
    intros [= <-]. by exists d0.
  - destruct (emplace_back_each _ _) as [rds|e] eqn:Hloop; simpl; [|done].
    intros Hnew. exists file, v0_2_0, header, metablock, rds.
    repeat split; [done| |done].
    by apply emplace_back_each_Ok in Hloop.
Qed.

(** ** The v2 level readers *)

(** C1, as the code has it: for an [UNSIGNED_INT] column [openColumnV2]
    passes a page reader for the repetition levels to the decoder exactly
    when [rlevel_max > 0], and never one for the definition levels, whatever
    [dlevel_max] is. *)
Theorem openColumnV2_level_readers tags c page_mgr :
  logical_type c = UNSIGNED_INT tags →
  openColumnV2 tags c page_mgr =
    Ok (UnsignedIntColumnReader c
          (if (0 <? rlevel_max c)%N then Some (UInt64PageReader page_mgr) else None)
          None
          page_mgr).
Proof.
  intros Hty. unfold openColumnV2. by rewrite Hty, N.eqb_refl.
Qed.

Lemma openColumnV2_level_readers_witness :
  dlevel_max col_nested = 1%N ∧
  openColumnV2 sample_tags col_nested sample_page_mgr =
    Ok (UnsignedIntColumnReader col_nested
          (Some (UInt64PageReader sample_page_mgr)) None sample_page_mgr).
Proof.
  split; [reflexivity|].
  exact (openColumnV2_level_readers sample_tags col_nested sample_page_mgr eq_refl).
Defined.

(** ** The v1 dispatch table *)

(** C4: [openColumnV1] is a closed table over [storage_type]. Each of the
    seven storage tags constructs its own decoder class from
    [(rlevel_max, dlevel_max, data pointer, data size)]; every other tag
    raises the unsupported-type error carrying the numeric tag, and returns
    no decoder. Hypotheses: the seven enumerators have pairwise distinct
    values, as the case labels of a [switch] must, and the tag fits the
    [uint32_t] it is cast to. *)
Theorem openColumnV1_dispatch tags c mmap :
  NoDup (storage_case_labels tags) →
  (storage_type c < 2 ^ 32)%N →
  let decoder cls :=
    V1ColumnReader cls (rlevel_max c) (dlevel_max c)
      (structAt mmap (body_offset c)) (body_size c) None in
  (storage_type c = BOOLEAN_BITPACKED tags →
     openColumnV1 tags c mmap = Ok (decoder BooleanColumnReader)) ∧
  (storage_type c = UINT32_BITPACKED tags →
     openColumnV1 tags c mmap = Ok (decoder BitPackedIntColumnReader)) ∧
  (storage_type c = UINT32_PLAIN tags →
     openColumnV1 tags c mmap = Ok (decoder UInt32ColumnReader)) ∧
  (storage_type c = UINT64_PLAIN tags →
     openColumnV1 tags c mmap = Ok (decoder UInt64ColumnReader)) ∧
  (storage_type c = UINT64_LEB128 tags →
     openColumnV1 tags c mmap = Ok (decoder LEB128ColumnReader)) ∧
  (storage_type c = FLOAT_IEEE754 tags →
     openColumnV1 tags c mmap = Ok (decoder DoubleColumnReader)) ∧
  (storage_type c = STRING_PLAIN tags →
     openColumnV1 tags c mmap = Ok (decoder StringColumnReader)) ∧
  (storage_type c ∉ storage_case_labels tags →
     openColumnV1 tags c mmap =
       Raise (kRuntimeError "unsupported column type: $0" (storage_type c))).
Proof.
  intros Hlabels Hrange decoder. unfold storage_case_labels in *.
  repeat (apply NoDup_cons in Hlabels as [? Hlabels]).
  repeat (match goal with H : _ ∉ _ :: _ |- _ => apply not_elem_of_cons in H as [? ?] end).
  unfold openColumnV1, decoder.
  repeat split; intros Hcase.
  1-7: rewrite Hcase;
       repeat (rewrite N.eqb_refl || (rewrite (proj2 (N.eqb_neq _ _)) by congruence));
       reflexivity.
  repeat (apply not_elem_of_cons in Hcase as [? Hcase]).
  repeat (rewrite (proj2 (N.eqb_neq _ _)) by congruence).
  unfold to_uint32. by rewrite N.mod_small.
Qed.

Lemma sample_tags_distinct : NoDup (storage_case_labels sample_tags).
Proof. apply (bool_decide_unpack _). vm_compute. exact I. Defined.

Lemma openColumnV1_dispatch_witness :
  openColumnV1 sample_tags col_tags sample_mmap =
    Ok (V1ColumnReader StringColumnReader 1 1 (structAt sample_mmap 64) 24 None) ∧
  openColumnV1 sample_tags col_unknown_storage sample_mmap =
    Raise (kRuntimeError "unsupported column type: $0" 255).
Proof.
  split.
  - apply (openColumnV1_dispatch sample_tags col_tags sample_mmap
             sample_tags_distinct eq_refl).
    reflexivity.
  - apply (openColumnV1_dispatch sample_tags col_unknown_storage sample_mmap
             sample_tags_distinct eq_refl).
    apply (bool_decide_unpack _). vm_compute. exact I.
Defined.

(** ** The v2 dispatch *)

(** C5, as the code has it: [openColumnV2] dispatches on [logical_type] and
    constructs a decoder for [UNSIGNED_INT] only; for every other logical
    type it raises the unsupported-type error, and the number the error
    carries is the column's [storage_type], not the [logical_type] that
    failed the dispatch. *)
Theorem openColumnV2_dispatch tags c page_mgr :
  (logical_type c = UNSIGNED_INT tags ↔
     ∃ d, openColumnV2 tags c page_mgr = Ok d) ∧
  (logical_type c ≠ UNSIGNED_INT tags ↔
     openColumnV2 tags c page_mgr =
       Raise (kRuntimeError "unsupported column type: $0"
                (to_uint32 (storage_type c)))).
Proof.
  unfold openColumnV2.
  destruct (N.eqb_spec (logical_type c) (UNSIGNED_INT tags)) as [Heq|Hne].
  - split; split; try done. by eauto.
  - split; split; try done. by intros [d ?].
Qed.

(** The v2 dispatch run on a column of logical type [4] and storage type
    [100]: the error says [100]. *)
Example openColumnV2_error_tag :
  logical_type col_tags = 4%N ∧
  openColumnV2 sample_tags col_tags sample_page_mgr =
    Raise (kRuntimeError "unsupported column type: $0" 100).
Proof. split; reflexivity. Qed.

(** ** Row count and descriptor of an opened file *)

(** C2: [numRecords()] of a successfully opened file is the row count fixed
    at construction: [header.num_rows] for a v0_1_0 file and
    [metablock.num_rows] for a v0_2_0 file, also when the two differ. *)
Theorem numRecords_by_version tags File_openFile readHeader filename
    file version header metablock r :
  File_openFile filename = Ok file →
  readHeader file = Ok (version, header, metablock) →
  openFile tags File_openFile readHeader filename = Ok r →
  numRecords r = num_rows_ r ∧
  numRecords r =
    match version with
    | v0_1_0 => header_num_rows header
    | v0_2_0 => metablock_num_rows metablock
    end.
Proof.
  intros Hfile Hhdr Hopen.
  apply openFile_Ok in Hopen
    as (file' & version' & header' & metablock' & rds & Hfile' & Hhdr' & Hr).
  rewrite Hfile in Hfile'. injection Hfile' as <-.
  rewrite Hhdr in Hhdr'. injection Hhdr' as <- <- <-.
  split; [done|].
  destruct version; destruct Hr as [_ Hr];
    apply CSTableReader_new_Ok in Hr as [_ ->]; reflexivity.
Qed.

Lemma numRecords_by_version_witness :
  header_num_rows (sample_header sample_v1_columns) ≠ metablock_num_rows sample_metablock ∧
  (∃ r, openFile sample_tags (sample_open sample_file)
          (sample_readHeader v0_1_0 sample_v1_columns) "t.cst" = Ok r ∧
        numRecords r = 3%N) ∧
  (∃ r, openFile sample_tags (sample_open sample_file)
          (sample_readHeader v0_2_0 sample_v2_columns) "t.cst" = Ok r ∧
        numRecords r = 5%N).
Proof.
  split; [discriminate|]. split.
  - destruct (openFile sample_tags (sample_open sample_file)
                (sample_readHeader v0_1_0 sample_v1_columns) "t.cst")
      as [r|e] eqn:Hopen; [|vm_compute in Hopen; discriminate].
    exists r. split; [reflexivity|].
    exact (proj2 (numRecords_by_version sample_tags (sample_open sample_file)
             (sample_readHeader v0_1_0 sample_v1_columns) "t.cst"
             sample_file v0_1_0 (sample_header sample_v1_columns)
             sample_metablock r eq_refl eq_refl Hopen)).
  - destruct (openFile sample_tags (sample_open sample_file)
                (sample_readHeader v0_2_0 sample_v2_columns) "t.cst")
      as [r|e] eqn:Hopen; [|vm_compute in Hopen; discriminate].
    exists r. split; [reflexivity|].
    exact (proj2 (numRecords_by_version sample_tags (sample_open sample_file)
             (sample_readHeader v0_2_0 sample_v2_columns) "t.cst"
             sample_file v0_2_0 (sample_header sample_v2_columns)
             sample_metablock r eq_refl eq_refl Hopen)).
Defined.

(** C10: the destructor closes the stored descriptor if and only if it is
    strictly greater than 0. A v0_1_0 reader is constructed with descriptor
    -1 and closes nothing; a v0_2_0 reader stores the descriptor it took
    from the file and closes it on destruction, except that a descriptor
    equal to 0 is never closed. *)
Theorem destructor_closes_positive_descriptor tags File_openFile readHeader
    filename file version header metablock r :
  File_openFile filename = Ok file →
  readHeader file = Ok (version, header, metablock) →
  openFile tags File_openFile readHeader filename = Ok r →
  (∀ d, close d ∈ CSTableReader_destroy r ↔ d = fd_ r ∧ (0 < fd_ r)%Z) ∧
  match version with
  | v0_1_0 => fd_ r = (-1)%Z ∧ CSTableReader_destroy r = []
  | v0_2_0 =>
      fd_ r = fd file ∧
      ((0 < fd file)%Z → CSTableReader_destroy r = [close (fd file)]) ∧
      (fd file = 0%Z → CSTableReader_destroy r = [])
  end.
Proof.
  intros Hfile Hhdr Hopen. split.
  - intros d. unfold CSTableReader_destroy.
    destruct (Z.ltb_spec 0 (fd_ r)) as [Hpos|Hneg].
    + rewrite list_elem_of_singleton. split.
      * by intros [= ->].
      * by intros [-> _].
    + split; [by intros ?%elem_of_nil|]. intros [_ ?]. lia.
  - apply openFile_Ok in Hopen
      as (file' & version' & header' & metablock' & rds & Hfile' & Hhdr' & Hr).
    rewrite Hfile in Hfile'. injection Hfile' as <-.
    rewrite Hhdr in Hhdr'. injection Hhdr' as <- <- <-.
    destruct version; destruct Hr as [_ Hr];
      apply CSTableReader_new_Ok in Hr as [_ ->];
      unfold CSTableReader_destroy; simpl.
    + done.
    + split; [done|]. split.
      * intros Hpos. by rewrite (proj2 (Z.ltb_lt _ _) Hpos).
      * by intros ->.
Qed.

Lemma destructor_closes_positive_descriptor_witness :
  (∃ r, openFile sample_tags (sample_open sample_file)
          (sample_readHeader v0_1_0 sample_v1_columns) "t.cst" = Ok r ∧
        CSTableReader_destroy r = []) ∧
  (∃ r, openFile sample_tags (sample_open sample_file)
          (sample_readHeader v0_2_0 sample_v2_columns) "t.cst" = Ok r ∧
        CSTableReader_destroy r = [close 7]) ∧
  (∃ r, openFile sample_tags (sample_open stdin_file)
          (sample_readHeader v0_2_0 sample_v2_columns) "t.cst" = Ok r ∧
        CSTableReader_destroy r = []).
Proof.
  split; [|split].
  - destruct (openFile sample_tags (sample_open sample_file)
                (sample_readHeader v0_1_0 sample_v1_columns) "t.cst")
      as [r|e] eqn:Hopen; [|vm_compute in Hopen; discriminate].
    exists r. split; [reflexivity|].
    exact (proj2 (proj2 (destructor_closes_positive_descriptor sample_tags
             (sample_open sample_file)
             (sample_readHeader v0_1_0 sample_v1_columns) "t.cst"
             sample_file v0_1_0 (sample_header sample_v1_columns)
             sample_metablock r eq_refl eq_refl Hopen))).
  - destruct (openFile sample_tags (sample_open sample_file)
                (sample_readHeader v0_2_0 sample_v2_columns) "t.cst")
      as [r|e] eqn:Hopen; [|vm_compute in Hopen; discriminate].
    exists r. split; [reflexivity|].
    apply (destructor_closes_positive_descriptor sample_tags
             (sample_open sample_file)
             (sample_readHeader v0_2_0 sample_v2_columns) "t.cst"
             sample_file v0_2_0 (sample_header sample_v2_columns)
             sample_metablock r eq_refl eq_refl Hopen).
    reflexivity.
  - destruct (openFile sample_tags (sample_open stdin_file)
                (sample_readHeader v0_2_0 sample_v2_columns) "t.cst")
      as [r|e] eqn:Hopen; [|vm_compute in Hopen; discriminate].
    exists r. split; [reflexivity|].
    apply (destructor_closes_positive_descriptor sample_tags
             (sample_open stdin_file)
             (sample_readHeader v0_2_0 sample_v2_columns) "t.cst"
             stdin_file v0_2_0 (sample_header sample_v2_columns)
             sample_metablock r eq_refl eq_refl Hopen).
    reflexivity.
Defined.

(** ** The indices of a constructed reader *)

Lemma by_name_lookup version page_mgr cols rds n_rows descr r s :
  CSTableReader_new version page_mgr cols rds n_rows descr = Ok r →
  column_readers_by_name_ r !! s = first_named s (zip cols rds).
Proof.
  intros [_ ->]%CSTableReader_new_Ok. simpl.
  by rewrite index_columns_by_name, lookup_empty.
Qed.

Lemma by_id_lookup version page_mgr cols rds n_rows descr r k :
  CSTableReader_new version page_mgr cols rds n_rows descr = Ok r →
  column_readers_by_id_ r !! k = first_with_id k (zip cols rds).
Proof.
  intros [_ ->]%CSTableReader_new_Ok. simpl.
  by rewrite index_columns_by_id, lookup_empty.
Qed.

Lemma elem_of_zip_columns (cols : list ColumnConfig) (rds : list ColumnReader) c :
  length rds = length cols →
  c ∈ cols ↔ ∃ d, (c, d) ∈ zip cols rds.
Proof.
  intros Hlen. split.
  - intros [i Hi]%list_elem_of_lookup.
    destruct (lookup_lt_is_Some_2 rds i) as [d Hd].
    { rewrite Hlen. by eapply lookup_lt_Some. }
    exists d. by eapply elem_of_lookup_zip_with_2.
  - intros [d (i & c' & d' & [= -> ->] & Hi & _)%elem_of_lookup_zip_with].
    by eapply list_elem_of_lookup_2.
Qed.

Lemma by_name_is_Some version page_mgr cols rds n_rows descr r s :
  CSTableReader_new version page_mgr cols rds n_rows descr = Ok r →
  is_Some (column_readers_by_name_ r !! s) ↔ ∃ c, c ∈ cols ∧ column_name c = s.
Proof.
  intros Hnew. rewrite (by_name_lookup _ _ _ _ _ _ _ _ Hnew).
  apply CSTableReader_new_Ok in Hnew as [Hlen _].
  split.
  - intros [d (i & c & Hi & Hc)%first_named_Some]. exists c. split; [|done].
    apply (elem_of_zip_columns cols rds c Hlen). exists d.
    by eapply list_elem_of_lookup_2.
  - intros (c & [d Hin]%(elem_of_zip_columns cols rds c Hlen) & Hc).
    apply not_eq_None_Some. intros Hnone.
    by apply (proj1 (first_named_None _ _) Hnone c d).
Qed.

Lemma getColumnReader_first_named version page_mgr cols rds n_rows descr r i c d :
  CSTableReader_new version page_mgr cols rds n_rows descr = Ok r →
  cols !! i = Some c →
  rds !! i = Some d →
  (∀ j c', (j < i)%nat → cols !! j = Some c' → column_name c' ≠ column_name c) →
  getColumnReader (column_name c) r = (Ok d, r).
Proof.
  intros Hnew Hc Hd Hfirst. unfold getColumnReader.
  rewrite (by_name_lookup _ _ _ _ _ _ _ _ Hnew).
  rewrite (first_named_lookup _ _ i c d); [done| |done|].
  - rewrite lookup_zip_with_Some. by exists c, d.
  - intros j c' d' Hj (c1 & d1 & [= -> ->] & Hl & _)%lookup_zip_with_Some.
    by apply (Hfirst j).
Qed.

(** C3: a name that is in the name index, that is the name of some column of
    the file, makes [hasColumn] answer true and [getColumnReader] return a
    decoder; any other string makes [hasColumn] answer false and
    [getColumnReader] raise the Not-Found error. Neither call changes the
    reader, and [hasColumn] is a total boolean function. *)
Theorem hasColumn_getColumnReader version page_mgr cols rds n_rows descr r s :
  CSTableReader_new version page_mgr cols rds n_rows descr = Ok r →
  (is_Some (column_readers_by_name_ r !! s) ↔
     ∃ c, c ∈ cols ∧ column_name c = s) ∧
  (is_Some (column_readers_by_name_ r !! s) →
     hasColumn r s = true ∧ ∃ d, getColumnReader s r = (Ok d, r)) ∧
  (column_readers_by_name_ r !! s = None →
     hasColumn r s = false ∧
     getColumnReader s r = (Raise (kNotFoundError "column not found: $0" s), r)).
Proof.
  intros Hnew. split; [by eapply by_name_is_Some|].
  unfold hasColumn, getColumnReader. split.
  - intros [d ->]. split; [done|]. by exists d.
  - by intros ->.
Qed.

Lemma hasColumn_getColumnReader_witness :
  ∃ r, sample_new sample_v2_columns [decoder_id; decoder_nested; decoder_anon] = Ok r ∧
       hasColumn r "nested" = true ∧
       getColumnReader "nested" r = (Ok decoder_nested, r) ∧
       hasColumn r "missing" = false ∧
       getColumnReader "missing" r =
         (Raise (kNotFoundError "column not found: $0" "missing"), r).
Proof.
  destruct (sample_new sample_v2_columns [decoder_id; decoder_nested; decoder_anon])
    as [r|e] eqn:Hnew; [|vm_compute in Hnew; discriminate].
  exists r. split; [reflexivity|].
  assert (column_readers_by_name_ r !! "nested" = Some decoder_nested) as Hnested
    by (rewrite (by_name_lookup _ _ _ _ _ _ _ "nested" Hnew); reflexivity).
  assert (column_readers_by_name_ r !! "missing" = None) as Hmissing
    by (rewrite (by_name_lookup _ _ _ _ _ _ _ "missing" Hnew); reflexivity).
  destruct (hasColumn_getColumnReader _ _ _ _ _ _ r "nested" Hnew) as (_ & Hyes & _).
  destruct (hasColumn_getColumnReader _ _ _ _ _ _ r "missing" Hnew) as (_ & _ & Hno).
  destruct (Hyes (ex_intro _ _ Hnested)) as [Hhas [d Hget]].
  destruct (Hno Hmissing) as [Hhas' Hget'].
  repeat split; try assumption.
  rewrite Hget. unfold getColumnReader in Hget. rewrite Hnested in Hget.
  by injection Hget as <-.
Defined.

Lemma zip_columns_lookup (cols : list ColumnConfig) (rds : list ColumnReader) i c d :
  zip cols rds !! i = Some (c, d) ↔ cols !! i = Some c ∧ rds !! i = Some d.
Proof.
  rewrite lookup_zip_with_Some. split.
  - by intros (c' & d' & [= -> ->] & ? & ?).
  - intros [? ?]. by exists c, d.
Qed.

Lemma by_name_entry version page_mgr cols rds n_rows descr r s d :
  CSTableReader_new version page_mgr cols rds n_rows descr = Ok r →
  column_readers_by_name_ r !! s = Some d →
  ∃ i c, cols !! i = Some c ∧ rds !! i = Some d ∧ column_name c = s.
Proof.
  intros Hnew. rewrite (by_name_lookup _ _ _ _ _ _ _ _ Hnew).
  intros (i & c & [Hc Hd]%zip_columns_lookup & Hs)%first_named_Some.
  by exists i, c.
Qed.

Lemma by_id_entry version page_mgr cols rds n_rows descr r k d :
  CSTableReader_new version page_mgr cols rds n_rows descr = Ok r →
  column_readers_by_id_ r !! k = Some d →
  ∃ i c, cols !! i = Some c ∧ rds !! i = Some d ∧ column_id c = k ∧ (0 < k)%N.
Proof.
  intros Hnew. rewrite (by_id_lookup _ _ _ _ _ _ _ _ Hnew).
  intros (i & c & [Hc Hd]%zip_columns_lookup & Hk & Hpos)%first_with_id_Some.
  by exists i, c.
Qed.

Lemma first_with_id_lookup k l i c d :
  l !! i = Some (c, d) →
  column_id c = k →
  (0 < k)%N →
  (∀ j c' d', (j < i)%nat → l !! j = Some (c', d') → column_id c' ≠ k) →
  first_with_id k l = Some d.
Proof.
  revert i. induction l as [|[c0 d0] l IH]; intros i Hi Hk Hpos Hfirst; [done|].
  simpl. destruct i as [|i]; simpl in Hi.
  - simplify_eq. rewrite decide_True; [done|by split].
  - rewrite decide_False.
    + apply (IH i); [done..|]. intros j c' d' Hj Hl.
      apply (Hfirst (S j) c' d'); [lia|done].
    + intros [_ Heq]. by apply (Hfirst 0%nat c0 d0); [lia| |].
Qed.









(** ** Duplicate column names *)

(** C9, with the precedence the code has: of the columns that share a name,
    the name index keeps the decoder of the one declared first, and that is
    the decoder [getColumnReader] returns. *)
Theorem getColumnReader_first_declared version page_mgr cols rds n_rows descr r i c d :
  CSTableReader_new version page_mgr cols rds n_rows descr = Ok r →
  cols !! i = Some c →
  rds !! i = Some d →
  (∀ j c', (j < i)%nat → cols !! j = Some c' → column_name c' ≠ column_name c) →
  column_readers_by_name_ r !! column_name c = Some d ∧
  getColumnReader (column_name c) r = (Ok d, r).
Proof.
  intros Hnew Hc Hd Hfirst.
  assert (column_readers_by_name_ r !! column_name c = Some d) as Hidx.
  { rewrite (by_name_lookup _ _ _ _ _ _ _ _ Hnew).
    apply (first_named_lookup _ _ i c d); [by apply zip_columns_lookup|done|].
    intros j c' d' Hj [Hl _]%zip_columns_lookup. by apply (Hfirst j). }
  split; [done|]. unfold getColumnReader. by rewrite Hidx.
Qed.

Lemma getColumnReader_first_declared_witness :
  ∃ r, sample_new [col_id; col_id_again] [decoder_id; decoder_id_again] = Ok r ∧
       getColumnReader "id" r = (Ok decoder_id, r).
Proof.
  destruct (sample_new [col_id; col_id_again] [decoder_id; decoder_id_again])
    as [r|e] eqn:Hnew; [|vm_compute in Hnew; discriminate].
  exists r. split; [reflexivity|].
  apply (getColumnReader_first_declared _ _ _ _ _ _ r 0%nat col_id decoder_id
           Hnew eq_refl eq_refl).
  intros j c' Hj. lia.
Defined.

(** Against C9 as stated: a v0_2_0 file declares two columns named "id";
    [getColumnReader "id"] returns the decoder of the first, which is not the
    decoder of the last. *)
Lemma getColumnReader_not_last_declared :
  ∃ r,
    openFile sample_tags (sample_open sample_file)
      (sample_readHeader v0_2_0 [col_id; col_id_again]) "t.cst" = Ok r ∧
    openColumnV2 sample_tags col_id sample_page_mgr = Ok decoder_id ∧
    openColumnV2 sample_tags col_id_again sample_page_mgr = Ok decoder_id_again ∧
    last_named "id" [(col_id, decoder_id); (col_id_again, decoder_id_again)] =
      Some decoder_id_again ∧
    getColumnReader "id" r = (Ok decoder_id, r) ∧
    decoder_id ≠ decoder_id_again.
Proof.
  destruct (openFile sample_tags (sample_open sample_file)
              (sample_readHeader v0_2_0 [col_id; col_id_again]) "t.cst")
    as [r|e] eqn:Hopen; [|vm_compute in Hopen; discriminate].
  exists r. repeat split; try reflexivity; [|discriminate].
  apply openFile_Ok in Hopen
    as (file & version & header & metablock & rds & Hfile & Hhdr & Hr).
  injection Hfile as <-. injection Hhdr as <- <- <-.
  destruct Hr as [Hrds Hnew]. simpl in Hrds.
  apply Forall2_cons_inv_l in Hrds as (d1 & rds1 & Hd1 & Hrds & ->).
  apply Forall2_cons_inv_l in Hrds as (d2 & rds2 & Hd2 & Hrds & ->).
  apply Forall2_nil_inv_l in Hrds as ->.
  vm_compute in Hd1, Hd2. injection Hd1 as <-. injection Hd2 as <-.
  unfold getColumnReader. by rewrite (by_name_lookup _ _ _ _ _ _ _ _ Hnew).
Qed.

(** ** Encoding and type of a column *)

Lemma openColumnV1_encoding tags c mmap d0 :
  openColumnV1 tags c mmap = Ok d0 →
  encoding tags (storeMmap mmap d0) = storage_type c.
Proof.
  unfold openColumnV1.
  repeat match goal with
         | |- context [(storage_type c =? ?label)%N] =>
             destruct (N.eqb_spec (storage_type c) label) as [Heq|_];
             [intros [= <-]; simpl; symmetry; exact Heq|]
         end.
  done.
Qed.

Lemma openColumnV2_encoding_type tags v1_type c page_mgr d :
  openColumnV2 tags c page_mgr = Ok d →
  encoding tags d = storage_type c ∧ type v1_type d = logical_type c.
Proof.
  unfold openColumnV2. destruct (_ =? _)%N; [|done]. by intros [= <-].
Qed.

(** C7, as far as the decoders can tell: [getColumnEncoding] and
    [getColumnType] apply [encoding()] and [type()] to what [getColumnReader]
    returns and fail with its Not-Found error for a name no column has. For
    a name some column has, [getColumnEncoding] is the [storage_type] of the
    first column declared with that name, and in a v0_2_0 file
    [getColumnType] is its [logical_type]. *)
Theorem getColumnEncoding_getColumnType tags v1_type File_openFile readHeader
    filename file version header metablock r :
  File_openFile filename = Ok file →
  readHeader file = Ok (version, header, metablock) →
  openFile tags File_openFile readHeader filename = Ok r →
  (∀ s, getColumnEncoding tags s r =
          (d ← (getColumnReader s r).1; Ok (encoding tags d), r) ∧
        getColumnType v1_type s r =
          (d ← (getColumnReader s r).1; Ok (type v1_type d), r)) ∧
  (∀ s, (∀ c, c ∈ header_columns header → column_name c ≠ s) →
        getColumnReader s r = (Raise (not_found s), r) ∧
        getColumnEncoding tags s r = (Raise (not_found s), r) ∧
        getColumnType v1_type s r = (Raise (not_found s), r)) ∧
  (∀ i c, header_columns header !! i = Some c →
        (∀ j c', (j < i)%nat → header_columns header !! j = Some c' →
                 column_name c' ≠ column_name c) →
        getColumnEncoding tags (column_name c) r = (Ok (storage_type c), r) ∧
        (version = v0_2_0 →
         getColumnType v1_type (column_name c) r = (Ok (logical_type c), r))).
Proof.
  intros Hfile Hhdr Hopen.
  apply openFile_Ok in Hopen
    as (file' & version' & header' & metablock' & rds & Hfile' & Hhdr' & Hr).
  rewrite Hfile in Hfile'. injection Hfile' as <-.
  rewrite Hhdr in Hhdr'. injection Hhdr' as <- <- <-.
  assert (∃ page_mgr n_rows descr,
            CSTableReader_new version page_mgr (header_columns header) rds
              n_rows descr = Ok r) as (page_mgr & n_rows & descr & Hnew).
  { destruct version; destruct Hr as [_ Hr]; eauto. }
  split; [|split].
  - intros s. unfold getColumnEncoding, getColumnType, getColumnReader.
    by destruct (column_readers_by_name_ r !! s).
  - intros s Habsent.
    assert (column_readers_by_name_ r !! s = None) as Hidx.
    { apply eq_None_not_Some.
      intros (c & Hc & Hs)%(by_name_is_Some _ _ _ _ _ _ _ _ Hnew).
      by apply (Habsent c). }
    unfold getColumnEncoding, getColumnType, getColumnReader.
    by rewrite Hidx.
  - intros i c Hc Hfirst.
    pose proof (CSTableReader_new_Ok _ _ _ _ _ _ _ Hnew) as [Hlen _].
    destruct (lookup_lt_is_Some_2 rds i) as [d Hd].
    { rewrite Hlen. by eapply lookup_lt_Some. }
    pose proof (getColumnReader_first_named version page_mgr (header_columns header)
                  rds n_rows descr r i c d Hnew Hc Hd Hfirst) as Hget.
    unfold getColumnEncoding, getColumnType. rewrite Hget. simpl.
    destruct version; destruct Hr as [Hrds _].
    + destruct (Forall2_lookup_lr _ _ _ _ _ _ Hrds Hc Hd) as (d0 & Hd0 & ->).
      split; [|done]. by rewrite (openColumnV1_encoding _ _ _ _ Hd0).
    + pose proof (Forall2_lookup_lr _ _ _ _ _ _ Hrds Hc Hd) as Hd0.
      destruct (openColumnV2_encoding_type tags v1_type _ _ _ Hd0) as [-> ->].
      done.
Qed.

Lemma getColumnEncoding_getColumnType_witness :
  ∃ r, openFile sample_tags (sample_open sample_file)
         (sample_readHeader v0_2_0 sample_v2_columns) "t.cst" = Ok r ∧
       getColumnEncoding sample_tags "nested" r = (Ok 12%N, r) ∧
       getColumnType (λ _, 0%N) "nested" r = (Ok 2%N, r) ∧
       getColumnEncoding sample_tags "missing" r = (Raise (not_found "missing"), r).
Proof.
  destruct (openFile sample_tags (sample_open sample_file)
              (sample_readHeader v0_2_0 sample_v2_columns) "t.cst")
    as [r|e] eqn:Hopen; [|vm_compute in Hopen; discriminate].
  exists r. split; [reflexivity|].
  destruct (getColumnEncoding_getColumnType sample_tags (λ _, 0%N)
              (sample_open sample_file)
              (sample_readHeader v0_2_0 sample_v2_columns) "t.cst"
              sample_file v0_2_0 (sample_header sample_v2_columns)
              sample_metablock r eq_refl eq_refl Hopen)
    as (_ & Habsent & Hpresent).
  destruct (Hpresent 1%nat col_nested eq_refl) as [Henc Hty].
  { intros [|j] c' Hj; [|lia]. by intros [= <-]. }
  split; [exact Henc|]. split; [exact (Hty eq_refl)|].
  apply (Habsent "missing"). intros c Hc.
  unfold sample_header, sample_v2_columns in Hc. simpl in Hc.
  repeat (apply elem_of_cons in Hc as [->|Hc]; [discriminate|]).
  by apply elem_of_nil in Hc.
Defined.

(** Against C7 as stated. In a v0_2_0 file with two columns named "id",
    [getColumnEncoding "id"] is the storage type of the first (12), not the
    one recorded for the second (13). And two v0_1_0 files whose one column
    differs in the recorded logical type only (2 and 6) get one and the same
    decoder, so [getColumnType] answers the same for both, whatever a v1
    decoder's [type()] is. *)
Lemma getColumnEncoding_getColumnType_not_recorded :
  (∃ r, openFile sample_tags (sample_open sample_file)
          (sample_readHeader v0_2_0 [col_id; col_id_again]) "t.cst" = Ok r ∧
        columns r !! 1%nat = Some col_id_again ∧
        column_name col_id_again = "id" ∧
        storage_type col_id_again = 13%N ∧
        getColumnEncoding sample_tags "id" r = (Ok 12%N, r)) ∧
  (∃ r1 r2,
        openFile sample_tags (sample_open sample_file)
          (sample_readHeader v0_1_0 [col_leb_uint]) "t.cst" = Ok r1 ∧
        openFile sample_tags (sample_open sample_file)
          (sample_readHeader v0_1_0 [col_leb_time]) "t.cst" = Ok r2 ∧
        columns r1 = [col_leb_uint] ∧ logical_type col_leb_uint = 2%N ∧
        columns r2 = [col_leb_time] ∧ logical_type col_leb_time = 6%N ∧
        ∀ v1_type, (getColumnType v1_type "t" r1).1 = (getColumnType v1_type "t" r2).1).
Proof.
  split.
  - eexists. split; [vm_compute; reflexivity|].
    repeat split; vm_compute; reflexivity.
  - eexists _, _. split; [vm_compute; reflexivity|].
    split; [vm_compute; reflexivity|].
    repeat split; try (vm_compute; reflexivity).
Qed.

(** ** Queries leave the reader as it is *)

Lemma run_query_frame tags v1_type q self :
  (run_query tags v1_type q self).2 = self.
Proof.
  destruct q as [s|s|s| |s|]; simpl; try reflexivity.
  - unfold getColumnReader. by destruct (column_readers_by_name_ self !! s).
  - unfold getColumnEncoding, getColumnReader.
    by destruct (column_readers_by_name_ self !! s).
  - unfold getColumnType, getColumnReader.
    by destruct (column_readers_by_name_ self !! s).
Qed.

Lemma run_query_columns tags v1_type q self a :
  (run_query tags v1_type q self).1 = ret_columns a → a = columns_ self.
Proof.
  destruct q as [s|s|s| |s|]; simpl;
    unfold getColumnEncoding, getColumnType, getColumnReader;
    repeat case_match; simpl; try discriminate.
  by intros [= <-].
Qed.

Lemma run_queries_frame tags v1_type qs self :
  (run_queries tags v1_type qs self).2 = self ∧
  ∀ a, ret_columns a ∈ (run_queries tags v1_type qs self).1 → a = columns_ self.
Proof.
  induction qs as [|q qs IH]; simpl.
  - split; [done|]. by intros a ?%elem_of_nil.
  - pose proof (run_query_frame tags v1_type q self) as Hq.
    pose proof (run_query_columns tags v1_type q self) as Hc.
    destruct (run_query tags v1_type q self) as [a self'].
    simpl in Hq, Hc. subst self'.
    destruct (run_queries tags v1_type qs self) as [answers self''].
    simpl in *. destruct IH as [-> IH]. split; [done|].
    intros a' [Ha|Hin]%elem_of_cons; [|by apply IH].
    apply Hc. by rewrite Ha.
Qed.

(** C8: whatever sequence of query calls is made on an opened reader, the
    reader afterwards is the reader before: column list, row count and both
    indices are unchanged. Every [columns()] call in the sequence returns the
    column configs of the header, in the header's order. *)
Theorem queries_do_not_mutate tags v1_type File_openFile readHeader
    filename file version header metablock r qs :
  File_openFile filename = Ok file →
  readHeader file = Ok (version, header, metablock) →
  openFile tags File_openFile readHeader filename = Ok r →
  let r' := (run_queries tags v1_type qs r).2 in
  r' = r ∧
  columns_ r' = columns_ r ∧
  num_rows_ r' = num_rows_ r ∧
  column_readers_by_id_ r' = column_readers_by_id_ r ∧
  column_readers_by_name_ r' = column_readers_by_name_ r ∧
  columns r = header_columns header ∧
  ∀ a, ret_columns a ∈ (run_queries tags v1_type qs r).1 →
       a = header_columns header.
Proof.
  intros Hfile Hhdr Hopen r'.
  destruct (run_queries_frame tags v1_type qs r) as [Hframe Hcols].
  assert (columns_ r = header_columns header) as Hdisk.
  { apply openFile_Ok in Hopen
      as (file' & version' & header' & metablock' & rds & Hfile' & Hhdr' & Hr).
    rewrite Hfile in Hfile'. injection Hfile' as <-.
    rewrite Hhdr in Hhdr'. injection Hhdr' as <- <- <-.
    destruct version; destruct Hr as [_ Hr];
      by apply CSTableReader_new_Ok in Hr as [_ ->]. }
  subst r'. rewrite Hframe. repeat split; try done.
  intros a Ha. rewrite <- Hdisk. by apply Hcols.
Qed.

Lemma queries_do_not_mutate_witness :
  ∃ r, openFile sample_tags (sample_open sample_file)
         (sample_readHeader v0_1_0 sample_v1_columns) "t.cst" = Ok r ∧
       (run_queries sample_tags (λ _, 0%N) sample_queries r).2 = r ∧
       columns r = [col_id; col_tags].
Proof.
  destruct (openFile sample_tags (sample_open sample_file)
              (sample_readHeader v0_1_0 sample_v1_columns) "t.cst")
    as [r|e] eqn:Hopen; [|vm_compute in Hopen; discriminate].
  exists r. split; [reflexivity|].
  destruct (queries_do_not_mutate sample_tags (λ _, 0%N)
              (sample_open sample_file)
              (sample_readHeader v0_1_0 sample_v1_columns) "t.cst"
              sample_file v0_1_0 (sample_header sample_v1_columns)
              sample_metablock r sample_queries eq_refl eq_refl Hopen)
    as (Hframe & _ & _ & _ & _ & Hcols & _).
  split; [exact Hframe|exact Hcols].
Defined.

(** * Further properties of the reader

    ** The construction loop *)

Lemma emplace_back_each_all_Ok {A B : Type} (f : A → Res B) l :
  Forall (λ x, ∃ y, f x = Ok y) l → ∃ k, emplace_back_each f l = Ok k.
Proof.
  induction 1 as [|x l [y Hy] _ [k Hk]]; simpl.
  - by exists [].
  - rewrite Hy. simpl. rewrite Hk. simpl. by exists (y :: k).
Qed.

Lemma emplace_back_each_first_Raise {A B : Type} (f : A → Res B) l1 x l2 e :
  Forall (λ y, ∃ b, f y = Ok b) l1 →
  f x = Raise e →
  emplace_back_each f (l1 ++ x :: l2) = Raise e.
Proof.
  intros Hl1 Hx. induction Hl1 as [|y l1 [b Hb] _ IH]; simpl.
  - by rewrite Hx.
  - rewrite Hb. simpl. by rewrite IH.
Qed.

Lemma emplace_back_each_Raise {A B : Type} (f : A → Res B) l e :
  emplace_back_each f l = Raise e → ∃ x, x ∈ l ∧ f x = Raise e.
Proof.
  induction l as [|x l IH]; simpl; [done|].
  destruct (f x) as [y|e'] eqn:Hx; simpl.
  - destruct (emplace_back_each f l) as [ys|e'] eqn:Hl; simpl; [done|].
    intros [= ->]. destruct (IH eq_refl) as (x' & Hin & Hx').
    exists x'. split; [by right|done].
  - intros [= ->]. exists x. split; [left|done].
Qed.

Lemma CSTableReader_new_same_length version page_mgr cols rds n_rows descr :
  length rds = length cols →
  ∃ r, CSTableReader_new version page_mgr cols rds n_rows descr = Ok r.
Proof.
  intros Hlen. unfold CSTableReader_new. rewrite decide_True by done. eauto.
Qed.

Lemma openColumnV1_supported tags c mmap :
  storage_type c ∈ storage_case_labels tags →
  ∃ d, openColumnV1 tags c mmap = Ok d.
Proof.
  unfold storage_case_labels, openColumnV1. intros Hin.
  repeat match goal with
         | |- context [(storage_type c =? ?label)%N] =>
             destruct (N.eqb_spec (storage_type c) label) as [_|?]; [by eauto|]
         end.
  exfalso. repeat (apply elem_of_cons in Hin as [?|Hin]; [done|]).
  by apply elem_of_nil in Hin.
Qed.

Lemma openColumnV1_unsupported tags c mmap :
  storage_type c ∉ storage_case_labels tags →
  openColumnV1 tags c mmap =
    Raise (kRuntimeError "unsupported column type: $0" (to_uint32 (storage_type c))).
Proof.
  unfold storage_case_labels, openColumnV1. intros Hout.
  repeat (apply not_elem_of_cons in Hout as [? Hout]).
  by repeat (rewrite (proj2 (N.eqb_neq _ _)) by done).
Qed.

Lemma openColumnV1_Ok_supported tags c mmap d :
  openColumnV1 tags c mmap = Ok d → storage_type c ∈ storage_case_labels tags.
Proof.
  intros Hok. destruct (decide (storage_type c ∈ storage_case_labels tags)) as [|Hout];
    [done|].
  by rewrite (openColumnV1_unsupported _ _ _ Hout) in Hok.
Qed.

(** The error of the two dispatchers for a column [c]. *)
Lemma openColumn_Raise tags c e :
  (∀ mmap, openColumnV1 tags c mmap = Raise e →
     e = kRuntimeError "unsupported column type: $0" (to_uint32 (storage_type c))) ∧
  (∀ page_mgr, openColumnV2 tags c page_mgr = Raise e →
     e = kRuntimeError "unsupported column type: $0" (to_uint32 (storage_type c))).
Proof.
  split.
  - intros mmap Hraise.
    destruct (decide (storage_type c ∈ storage_case_labels tags)) as [Hin|Hout].
    + destruct (openColumnV1_supported tags c mmap Hin) as [d Hd]. congruence.
    + rewrite (openColumnV1_unsupported _ _ _ Hout) in Hraise. congruence.
  - intros page_mgr. unfold openColumnV2.
    destruct (_ =? _)%N; [done|]. congruence.
Qed.

(** ** Which files open *)

Lemma openFile_v1_unfold tags File_openFile readHeader filename file header metablock :
  File_openFile filename = Ok file →
  readHeader file = Ok (v0_1_0, header, metablock) →
  openFile tags File_openFile readHeader filename =
    (column_readers ←
       emplace_back_each
         (λ col, reader ← openColumnV1 tags col {| mmap_file := file |};
                 Ok (storeMmap {| mmap_file := file |} reader))
         (header_columns header);
     CSTableReader_new v0_1_0 None (header_columns header) column_readers
       (header_num_rows header) (-1)).
Proof. intros Hfile Hhdr. unfold openFile. by rewrite Hfile; simpl; rewrite Hhdr. Qed.

Lemma openFile_v2_unfold tags File_openFile readHeader filename file header metablock :
  File_openFile filename = Ok file →
  readHeader file = Ok (v0_2_0, header, metablock) →
  openFile tags File_openFile readHeader filename =
    (column_readers ←
       emplace_back_each
         (λ col, openColumnV2 tags col {| pm_fd := fd file; pm_offset := 0 |})
         (header_columns header);
     CSTableReader_new v0_2_0 (Some {| pm_fd := fd file; pm_offset := 0 |})
       (header_columns header) column_readers
       (metablock_num_rows metablock) (releaseFD file)).
Proof. intros Hfile Hhdr. unfold openFile. by rewrite Hfile; simpl; rewrite Hhdr. Qed.

Lemma construction_after_loop (f : ColumnConfig → Res ColumnReader)
    version page_mgr cols n_rows descr :
  Forall (λ c, ∃ d, f c = Ok d) cols →
  ∃ r, (column_readers ← emplace_back_each f cols;
        CSTableReader_new version page_mgr cols column_readers n_rows descr) = Ok r.
Proof.
  intros [rds Hrds]%emplace_back_each_all_Ok. rewrite Hrds. simpl.
  apply CSTableReader_new_same_length. symmetry.
  by eapply Forall2_length, emplace_back_each_Ok.
Qed.

(** X1: once the file is open and its header read, a v0_1_0 file opens
    exactly when the storage type of every column is one of the seven case
    labels. Otherwise [openFile] raises the unsupported-type error of the
    first column, in header order, whose storage type is not. *)
Theorem openFile_v1_supported tags File_openFile readHeader filename
    file header metablock :
  File_openFile filename = Ok file →
  readHeader file = Ok (v0_1_0, header, metablock) →
  ((∃ r, openFile tags File_openFile readHeader filename = Ok r) ↔
     Forall (λ c, storage_type c ∈ storage_case_labels tags)
       (header_columns header)) ∧
  (∀ good c rest,
     header_columns header = (good ++ c :: rest)%list →
     Forall (λ c', storage_type c' ∈ storage_case_labels tags) good →
     storage_type c ∉ storage_case_labels tags →
     openFile tags File_openFile readHeader filename =
       Raise (kRuntimeError "unsupported column type: $0"
                (to_uint32 (storage_type c)))).
Proof.
  intros Hfile Hhdr. split; [split|].
  - intros [r Hopen]. apply openFile_Ok in Hopen
      as (file' & version' & header' & metablock' & rds & Hfile' & Hhdr' & Hr).
    rewrite Hfile in Hfile'. injection Hfile' as <-.
    rewrite Hhdr in Hhdr'. injection Hhdr' as <- <- <-.
    destruct Hr as [Hrds _]. apply Forall_lookup. intros i c Hc.
    destruct (Forall2_lookup_l _ _ _ _ _ Hrds Hc) as (d & _ & d0 & Hd0 & _).
    by eapply openColumnV1_Ok_supported.
  - intros Hall. rewrite (openFile_v1_unfold _ _ _ _ _ _ _ Hfile Hhdr).
    apply construction_after_loop.
    eapply Forall_impl; [exact Hall|]. intros c Hc. simpl.
    destruct (openColumnV1_supported tags c {| mmap_file := file |} Hc) as [d ->].
    simpl. eauto.
  - intros good c rest Hcols Hgood Hbad.
    rewrite (openFile_v1_unfold _ _ _ _ _ _ _ Hfile Hhdr), Hcols.
    rewrite (emplace_back_each_first_Raise _ good c rest
               (kRuntimeError "unsupported column type: $0" (to_uint32 (storage_type c)))).
    + done.
    + eapply Forall_impl; [exact Hgood|]. intros c' Hc'. simpl.
      destruct (openColumnV1_supported tags c' {| mmap_file := file |} Hc') as [d ->].
      simpl. eauto.
    + by rewrite (openColumnV1_unsupported _ _ _ Hbad).
Qed.

Lemma openFile_v1_supported_witness :
  (∃ r, openFile sample_tags (sample_open sample_file)
          (sample_readHeader v0_1_0 [col_id; col_tags]) "t.cst" = Ok r) ∧
  openFile sample_tags (sample_open sample_file)
    (sample_readHeader v0_1_0 [col_id; col_unknown_storage; col_tags]) "t.cst" =
    Raise (kRuntimeError "unsupported column type: $0" 255).
Proof.
  split.
  - apply (openFile_v1_supported sample_tags (sample_open sample_file)
             (sample_readHeader v0_1_0 [col_id; col_tags]) "t.cst" sample_file
             (sample_header [col_id; col_tags]) sample_metablock eq_refl eq_refl).
    repeat constructor; apply (bool_decide_unpack _); vm_compute; exact I.
  - apply (proj2 (openFile_v1_supported sample_tags (sample_open sample_file)
             (sample_readHeader v0_1_0 [col_id; col_unknown_storage; col_tags])
             "t.cst" sample_file
             (sample_header [col_id; col_unknown_storage; col_tags])
             sample_metablock eq_refl eq_refl) [col_id] col_unknown_storage [col_tags]).
    + reflexivity.
    + repeat constructor; apply (bool_decide_unpack _); vm_compute; exact I.
    + apply (bool_decide_unpack _); vm_compute; exact I.
Defined.

(** X2: once the file is open and its header read, a v0_2_0 file opens
    exactly when the logical type of every column is [UNSIGNED_INT].
    Otherwise [openFile] raises the unsupported-type error for the first
    column, in header order, of another logical type, and the number in the
    error is that column's storage type. *)
Theorem openFile_v2_supported tags File_openFile readHeader filename
    file header metablock :
  File_openFile filename = Ok file →
  readHeader file = Ok (v0_2_0, header, metablock) →
  ((∃ r, openFile tags File_openFile readHeader filename = Ok r) ↔
     Forall (λ c, logical_type c = UNSIGNED_INT tags) (header_columns header)) ∧
  (∀ good c rest,
     header_columns header = (good ++ c :: rest)%list →
     Forall (λ c', logical_type c' = UNSIGNED_INT tags) good →
     logical_type c ≠ UNSIGNED_INT tags →
     openFile tags File_openFile readHeader filename =
       Raise (kRuntimeError "unsupported column type: $0"
                (to_uint32 (storage_type c)))).
Proof.
  intros Hfile Hhdr.
  assert (∀ c, logical_type c = UNSIGNED_INT tags →
               ∃ d, openColumnV2 tags c {| pm_fd := fd file; pm_offset := 0 |} = Ok d)
    as Hgood_col.
  { intros c Hc. unfold openColumnV2. rewrite Hc, N.eqb_refl. eauto. }
  split; [split|].
  - intros [r Hopen]. apply openFile_Ok in Hopen
      as (file' & version' & header' & metablock' & rds & Hfile' & Hhdr' & Hr).
    rewrite Hfile in Hfile'. injection Hfile' as <-.
    rewrite Hhdr in Hhdr'. injection Hhdr' as <- <- <-.
    destruct Hr as [Hrds _]. apply Forall_lookup. intros i c Hc.
    destruct (Forall2_lookup_l _ _ _ _ _ Hrds Hc) as (d & _ & Hd).
    unfold openColumnV2 in Hd.
    by destruct (N.eqb_spec (logical_type c) (UNSIGNED_INT tags)).
  - intros Hall. rewrite (openFile_v2_unfold _ _ _ _ _ _ _ Hfile Hhdr).
    apply construction_after_loop.
    eapply Forall_impl; [exact Hall|]. exact Hgood_col.
  - intros good c rest Hcols Hgood Hbad.
    rewrite (openFile_v2_unfold _ _ _ _ _ _ _ Hfile Hhdr), Hcols.
    rewrite (emplace_back_each_first_Raise _ good c rest
               (kRuntimeError "unsupported column type: $0" (to_uint32 (storage_type c)))).
    + done.
    + eapply Forall_impl; [exact Hgood|]. exact Hgood_col.
    + unfold openColumnV2. by rewrite (proj2 (N.eqb_neq _ _) Hbad).
Qed.

Lemma openFile_v2_supported_witness :
  (∃ r, openFile sample_tags (sample_open sample_file)
          (sample_readHeader v0_2_0 [col_id; col_nested]) "t.cst" = Ok r) ∧
  openFile sample_tags (sample_open sample_file)
    (sample_readHeader v0_2_0 [col_id; col_tags; col_nested]) "t.cst" =
    Raise (kRuntimeError "unsupported column type: $0" 100).
Proof.
  split.
  - apply (openFile_v2_supported sample_tags (sample_open sample_file)
             (sample_readHeader v0_2_0 [col_id; col_nested]) "t.cst" sample_file
             (sample_header [col_id; col_nested]) sample_metablock eq_refl eq_refl).
    repeat constructor.
  - apply (proj2 (openFile_v2_supported sample_tags (sample_open sample_file)
             (sample_readHeader v0_2_0 [col_id; col_tags; col_nested])
             "t.cst" sample_file
             (sample_header [col_id; col_tags; col_nested])
             sample_metablock eq_refl eq_refl) [col_id] col_tags [col_nested]).
    + reflexivity.
    + repeat constructor.
    + discriminate.
Defined.

(** X3: the ways [openFile] fails. An error of [File::openFile] or of
    [readHeader] is passed on unchanged, and every other failure is the
    unsupported-type error of one of the header's columns; the size check of
    the constructor is never what makes [openFile] fail. *)
Theorem openFile_failures tags File_openFile readHeader filename e :
  (File_openFile filename = Raise e →
     openFile tags File_openFile readHeader filename = Raise e) ∧
  (∀ file, File_openFile filename = Ok file → readHeader file = Raise e →
     openFile tags File_openFile readHeader filename = Raise e) ∧
  (openFile tags File_openFile readHeader filename = Raise e →
     File_openFile filename = Raise e ∨
     (∃ file, File_openFile filename = Ok file ∧ readHeader file = Raise e) ∨
     (∃ file version header metablock c,
        File_openFile filename = Ok file ∧
        readHeader file = Ok (version, header, metablock) ∧
        c ∈ header_columns header ∧
        e = kRuntimeError "unsupported column type: $0"
              (to_uint32 (storage_type c)))).
Proof.
  split; [|split].
  - intros Hfile. unfold openFile. by rewrite Hfile.
  - intros file Hfile Hhdr. unfold openFile. rewrite Hfile. simpl. by rewrite Hhdr.
  - unfold openFile.
    destruct (File_openFile filename) as [file|e'] eqn:Hfile; simpl;
      [|intros [= ->]; by left].
    destruct (readHeader file) as [[[version header] metablock]|e'] eqn:Hhdr; simpl;
      [|intros [= ->]; right; left; by exists file].
    intros Hraise. right. right. exists file, version, header, metablock.
    destruct version.
    + destruct (emplace_back_each _ _) as [rds|e'] eqn:Hloop; simpl in Hraise.
      * apply emplace_back_each_Ok, Forall2_length in Hloop.
        destruct (CSTableReader_new_same_length v0_1_0 None (header_columns header)
                    rds (header_num_rows header) (-1) (eq_sym Hloop)) as [r Hr].
        congruence.
      * injection Hraise as ->.
        apply emplace_back_each_Raise in Hloop as (c & Hc & Hbad).
        exists c. do 3 (split; [done|]).
        destruct (openColumnV1 tags c _) as [d|e'] eqn:Hcol; simpl in Hbad; [done|].
        injection Hbad as ->. by eapply (proj1 (openColumn_Raise tags c e)).
    + destruct (emplace_back_each _ _) as [rds|e'] eqn:Hloop; simpl in Hraise.
      * apply emplace_back_each_Ok, Forall2_length in Hloop.
        destruct (CSTableReader_new_same_length v0_2_0
                    (Some {| pm_fd := fd file; pm_offset := 0 |})
                    (header_columns header) rds (metablock_num_rows metablock)
                    (releaseFD file) (eq_sym Hloop)) as [r Hr].
        congruence.
      * injection Hraise as ->.
        apply emplace_back_each_Raise in Hloop as (c & Hc & Hbad).
        exists c. do 3 (split; [done|]).
        by eapply (proj2 (openColumn_Raise tags c e)).
Qed.

(** ** What a lookup returns *)

Lemma openColumnV1_Ok tags c mmap d0 :
  openColumnV1 tags c mmap = Ok d0 →
  ∃ cls, storage_type c = class_label tags cls ∧
         storeMmap mmap d0 = v1_decoder cls c mmap.
Proof.
  unfold openColumnV1.
  repeat match goal with
         | |- context [(storage_type c =? ?label)%N] =>
             destruct (N.eqb_spec (storage_type c) label) as [Heq|_];
             [intros [= <-]; eexists; split; [|reflexivity]; exact Heq|]
         end.
  done.
Qed.

Lemma openColumnV2_Ok tags c page_mgr d :
  openColumnV2 tags c page_mgr = Ok d →
  logical_type c = UNSIGNED_INT tags ∧ d = v2_decoder c page_mgr.
Proof.
  unfold openColumnV2.
  destruct (N.eqb_spec (logical_type c) (UNSIGNED_INT tags)); [|done].
  by intros [= <-].
Qed.

(** X4: in an opened v0_2_0 file, looking up the name of a column that is the
    first of that name returns the decoder built from that very column's
    config over the reader's page manager: with a repetition-level page
    reader exactly when [rlevel_max > 0], and no definition-level reader. *)
Theorem openFile_v2_getColumnReader tags File_openFile readHeader filename
    file header metablock r i c :
  File_openFile filename = Ok file →
  readHeader file = Ok (v0_2_0, header, metablock) →
  openFile tags File_openFile readHeader filename = Ok r →
  header_columns header !! i = Some c →
  (∀ j c', (j < i)%nat → header_columns header !! j = Some c' →
           column_name c' ≠ column_name c) →
  page_mgr_ r = Some {| pm_fd := fd file; pm_offset := 0 |} ∧
  getColumnReader (column_name c) r =
    (Ok (v2_decoder c {| pm_fd := fd file; pm_offset := 0 |}), r).
Proof.
  intros Hfile Hhdr Hopen Hc Hfirst.
  apply openFile_Ok in Hopen
    as (file' & version' & header' & metablock' & rds & Hfile' & Hhdr' & Hr).
  rewrite Hfile in Hfile'. injection Hfile' as <-.
  rewrite Hhdr in Hhdr'. injection Hhdr' as <- <- <-.
  destruct Hr as [Hrds Hnew].
  destruct (Forall2_lookup_l _ _ _ _ _ Hrds Hc) as (d & Hd & Hcol).
  apply openColumnV2_Ok in Hcol as [_ ->]. split.
  - by apply CSTableReader_new_Ok in Hnew as [_ ->].
  - by apply (getColumnReader_first_named _ _ _ _ _ _ r i c _ Hnew).
Qed.

Lemma openFile_v2_getColumnReader_witness :
  ∃ r, openFile sample_tags (sample_open sample_file)
         (sample_readHeader v0_2_0 sample_v2_columns) "t.cst" = Ok r ∧
       getColumnReader "nested" r = (Ok decoder_nested, r).
Proof.
  destruct (openFile sample_tags (sample_open sample_file)
              (sample_readHeader v0_2_0 sample_v2_columns) "t.cst")
    as [r|e] eqn:Hopen; [|vm_compute in Hopen; discriminate].
  exists r. split; [reflexivity|].
  apply (openFile_v2_getColumnReader sample_tags (sample_open sample_file)
           (sample_readHeader v0_2_0 sample_v2_columns) "t.cst" sample_file
           (sample_header sample_v2_columns) sample_metablock r 1%nat col_nested
           eq_refl eq_refl Hopen eq_refl).
  intros [|j] c' Hj; [|lia]. by intros [= <-].
Defined.

(** X5: in an opened v0_1_0 file, looking up the name of a column that is the
    first of that name returns a decoder of a class whose case label is the
    column's storage type, constructed with the column's level maxima over
    the column's body range in the mapping of the file, and holding that
    mapping. *)
Theorem openFile_v1_getColumnReader tags File_openFile readHeader filename
    file header metablock r i c :
  File_openFile filename = Ok file →
  readHeader file = Ok (v0_1_0, header, metablock) →
  openFile tags File_openFile readHeader filename = Ok r →
  header_columns header !! i = Some c →
  (∀ j c', (j < i)%nat → header_columns header !! j = Some c' →
           column_name c' ≠ column_name c) →
  page_mgr_ r = None ∧
  ∃ cls, storage_type c = class_label tags cls ∧
         getColumnReader (column_name c) r =
           (Ok (v1_decoder cls c {| mmap_file := file |}), r).
Proof.
  intros Hfile Hhdr Hopen Hc Hfirst.
  apply openFile_Ok in Hopen
    as (file' & version' & header' & metablock' & rds & Hfile' & Hhdr' & Hr).
  rewrite Hfile in Hfile'. injection Hfile' as <-.
  rewrite Hhdr in Hhdr'. injection Hhdr' as <- <- <-.
  destruct Hr as [Hrds Hnew].
  destruct (Forall2_lookup_l _ _ _ _ _ Hrds Hc) as (d & Hd & d0 & Hcol & ->).
  apply openColumnV1_Ok in Hcol as (cls & Hcls & Hdec). split.
  - by apply CSTableReader_new_Ok in Hnew as [_ ->].
  - exists cls. split; [done|]. rewrite <- Hdec.
    by apply (getColumnReader_first_named _ _ _ _ _ _ r i c _ Hnew).
Qed.

Lemma openFile_v1_getColumnReader_witness :
  ∃ r, openFile sample_tags (sample_open sample_file)
         (sample_readHeader v0_1_0 sample_v1_columns) "t.cst" = Ok r ∧
       getColumnReader "tags" r =
         (Ok (V1ColumnReader StringColumnReader 1 1 (structAt sample_mmap 64) 24
                (Some sample_mmap)), r).
Proof.
  destruct (openFile sample_tags (sample_open sample_file)
              (sample_readHeader v0_1_0 sample_v1_columns) "t.cst")
    as [r|e] eqn:Hopen; [|vm_compute in Hopen; discriminate].
  exists r. split; [reflexivity|].
  destruct (openFile_v1_getColumnReader sample_tags (sample_open sample_file)
              (sample_readHeader v0_1_0 sample_v1_columns) "t.cst" sample_file
              (sample_header sample_v1_columns) sample_metablock r 1%nat col_tags
              eq_refl eq_refl Hopen eq_refl) as (_ & cls & Hcls & Hget).
  { intros [|j] c' Hj; [|lia]. by intros [= <-]. }
  destruct cls; try (vm_compute in Hcls; discriminate Hcls). exact Hget.
Defined.

(** ** The id index *)

(** X6: of the columns that share a positive id, the id index keeps the
    decoder of the one declared first. *)
Theorem id_index_first_declared version page_mgr cols rds n_rows descr r i c d :
  CSTableReader_new version page_mgr cols rds n_rows descr = Ok r →
  cols !! i = Some c →
  rds !! i = Some d →
  (0 < column_id c)%N →
  (∀ j c', (j < i)%nat → cols !! j = Some c' → column_id c' ≠ column_id c) →
  column_readers_by_id_ r !! column_id c = Some d.
Proof.
  intros Hnew Hc Hd Hpos Hfirst.
  rewrite (by_id_lookup _ _ _ _ _ _ _ _ Hnew).
  apply (first_with_id_lookup _ _ i c d); [by apply zip_columns_lookup|done..|].
  intros j c' d' Hj [Hl _]%zip_columns_lookup. by apply (Hfirst j).
Qed.

Lemma id_index_first_declared_witness :
  ∃ r, sample_new [col_anon; col_id; mk_column 1 "other" 13 2 0 0]
         [decoder_anon; decoder_id; decoder_nested] = Ok r ∧
       column_readers_by_id_ r !! 1%N = Some decoder_id.
Proof.
  destruct (sample_new [col_anon; col_id; mk_column 1 "other" 13 2 0 0]
              [decoder_anon; decoder_id; decoder_nested])
    as [r|e] eqn:Hnew; [|vm_compute in Hnew; discriminate].
  exists r. split; [reflexivity|].
  apply (id_index_first_declared _ _ _ _ _ _ r 1%nat col_id decoder_id
           Hnew eq_refl eq_refl eq_refl).
  intros [|j] c' Hj; [|lia]. by intros [= <-].
Defined.

(** X7: when every column has a positive id and the ids are pairwise
    distinct, every decoder of the name index is also a decoder of the id
    index. *)
Theorem name_index_within_id_index version page_mgr cols rds n_rows descr r :
  CSTableReader_new version page_mgr cols rds n_rows descr = Ok r →
  Forall (λ c, (0 < column_id c)%N) cols →
  NoDup (column_id <$> cols) →
  ∀ s d, column_readers_by_name_ r !! s = Some d →
         ∃ k, column_readers_by_id_ r !! k = Some d.
Proof.
  intros Hnew Hpos Hids s d Hs.
  destruct (by_name_entry _ _ _ _ _ _ _ _ _ Hnew Hs) as (i & c & Hc & Hd & _).
  exists (column_id c). rewrite (by_id_lookup _ _ _ _ _ _ _ _ Hnew).
  apply (first_with_id_lookup _ _ i c d); [by apply zip_columns_lookup|done| |].
  - by apply (Forall_lookup_1 _ _ _ _ Hpos Hc).
  - intros j c' d' Hj [Hc' _]%zip_columns_lookup Hsame.
    assert (j = i) as Hji; [|lia].
    apply (NoDup_lookup _ j i (column_id c) Hids).
    + by rewrite list_lookup_fmap, Hc', <- Hsame.
    + by rewrite list_lookup_fmap, Hc.
Qed.

Lemma name_index_within_id_index_witness :
  ∃ r, sample_new [col_id; col_nested] [decoder_id; decoder_nested] = Ok r ∧
       ∃ k, column_readers_by_id_ r !! k = Some decoder_nested.
Proof.
  destruct (sample_new [col_id; col_nested] [decoder_id; decoder_nested])
    as [r|e] eqn:Hnew; [|vm_compute in Hnew; discriminate].
  exists r. split; [reflexivity|].
  apply (name_index_within_id_index _ _ _ _ _ _ r Hnew) with (s := "nested").
  - by repeat constructor.
  - apply (bool_decide_unpack _). vm_compute. exact I.
  - rewrite (by_name_lookup _ _ _ _ _ _ _ _ Hnew). reflexivity.
Defined.

(** ** The decoders of an opened file *)

(** X8: every entry of the two indices of an opened file is a decoder that
    [openFile] built for a column of the header whose name, respectively
    positive id, is the entry's key. In a v0_1_0 reader all these decoders
    hold the one mapping of the file and the reader has no page manager; in a
    v0_2_0 reader they all hold the reader's page manager, which reads the
    descriptor the reader stores. *)
Theorem index_entries_of_opened_file tags File_openFile readHeader filename
    file version header metablock r :
  File_openFile filename = Ok file →
  readHeader file = Ok (version, header, metablock) →
  openFile tags File_openFile readHeader filename = Ok r →
  (∀ s d, column_readers_by_name_ r !! s = Some d →
     ∃ c, c ∈ header_columns header ∧ column_name c = s ∧
          built_for tags file version c d) ∧
  (∀ k d, column_readers_by_id_ r !! k = Some d →
     ∃ c, c ∈ header_columns header ∧ column_id c = k ∧ (0 < k)%N ∧
          built_for tags file version c d) ∧
  match version with
  | v0_1_0 => page_mgr_ r = None
  | v0_2_0 =>
      page_mgr_ r = Some {| pm_fd := fd file; pm_offset := 0 |} ∧
      fd_ r = fd file
  end.
Proof.
  intros Hfile Hhdr Hopen.
  apply openFile_Ok in Hopen
    as (file' & version' & header' & metablock' & rds & Hfile' & Hhdr' & Hr).
  rewrite Hfile in Hfile'. injection Hfile' as <-.
  rewrite Hhdr in Hhdr'. injection Hhdr' as <- <- <-.
  assert (∃ page_mgr n_rows descr,
            CSTableReader_new version page_mgr (header_columns header) rds
              n_rows descr = Ok r ∧
            ∀ i c d, header_columns header !! i = Some c → rds !! i = Some d →
                     built_for tags file version c d)
    as (page_mgr & n_rows & descr & Hnew & Hbuilt).
  { destruct version; destruct Hr as [Hrds Hnew];
      eexists _, _, _; (split; [exact Hnew|]); intros i c d Hc Hd; simpl.
    - destruct (Forall2_lookup_lr _ _ _ _ _ _ Hrds Hc Hd) as (d0 & Hd0 & ->).
      apply openColumnV1_Ok in Hd0 as (cls & Hcls & ->). by exists cls.
    - pose proof (Forall2_lookup_lr _ _ _ _ _ _ Hrds Hc Hd) as Hd0.
      by apply openColumnV2_Ok in Hd0. }
  split; [|split].
  - intros s d Hs.
    destruct (by_name_entry _ _ _ _ _ _ _ _ _ Hnew Hs) as (i & c & Hc & Hd & Hname).
    exists c. split; [by eapply list_elem_of_lookup_2|]. split; [done|].
    by apply (Hbuilt i).
  - intros k d Hk.
    destruct (by_id_entry _ _ _ _ _ _ _ _ _ Hnew Hk) as (i & c & Hc & Hd & Hid & Hpos).
    exists c. split; [by eapply list_elem_of_lookup_2|]. do 2 (split; [done|]).
    by apply (Hbuilt i).
  - destruct version; destruct Hr as [_ Hr];
      by apply CSTableReader_new_Ok in Hr as [_ ->].
Qed.

Lemma index_entries_of_opened_file_witness :
  ∃ r, openFile sample_tags (sample_open sample_file)
         (sample_readHeader v0_2_0 sample_v2_columns) "t.cst" = Ok r ∧
       page_mgr_ r = Some sample_page_mgr ∧ fd_ r = 7%Z ∧
       ∀ k d, column_readers_by_id_ r !! k = Some d →
              ∃ c, c ∈ sample_v2_columns ∧ column_id c = k ∧
                   d = v2_decoder c sample_page_mgr.
Proof.
  destruct (openFile sample_tags (sample_open sample_file)
              (sample_readHeader v0_2_0 sample_v2_columns) "t.cst")
    as [r|e] eqn:Hopen; [|vm_compute in Hopen; discriminate].
  exists r. split; [reflexivity|].
  destruct (index_entries_of_opened_file sample_tags (sample_open sample_file)
              (sample_readHeader v0_2_0 sample_v2_columns) "t.cst" sample_file
              v0_2_0 (sample_header sample_v2_columns) sample_metablock r
              eq_refl eq_refl Hopen) as (_ & Hids & Hpm & Hfd).
  split; [exact Hpm|]. split; [exact Hfd|].
  intros k d Hk. destruct (Hids k d Hk) as (c & Hc & Hid & _ & _ & Hd).
  by exists c.
Defined.

(** ** Appending columns *)

Lemma first_named_app s l l' :
  first_named s (l ++ l') =
  match first_named s l with
  | Some d => Some d
  | None => first_named s l'
  end.
Proof.
  induction l as [|[c d] l IH]; simpl; [by destruct (first_named s l')|].
  by case_decide.
Qed.

Lemma first_with_id_app k l l' :
  first_with_id k (l ++ l') =
  match first_with_id k l with
  | Some d => Some d
  | None => first_with_id k l'
  end.
Proof.
  induction l as [|[c d] l IH]; simpl; [by destruct (first_with_id k l')|].
  by case_decide.
Qed.

(** X9: columns appended to the column list never change what the names and
    ids of the earlier columns resolve to: every entry of the indices built
    from [cols] is an entry of the indices built from [cols ++ cols'], and a
    successful [getColumnReader] returns the same decoder. *)
Theorem appended_columns_keep_lookups
    version page_mgr cols rds n_rows descr r
    version' page_mgr' cols' rds' n_rows' descr' r' :
  CSTableReader_new version page_mgr cols rds n_rows descr = Ok r →
  CSTableReader_new version' page_mgr' (cols ++ cols') (rds ++ rds')
    n_rows' descr' = Ok r' →
  (∀ s d, column_readers_by_name_ r !! s = Some d →
          column_readers_by_name_ r' !! s = Some d) ∧
  (∀ k d, column_readers_by_id_ r !! k = Some d →
          column_readers_by_id_ r' !! k = Some d) ∧
  (∀ s d, getColumnReader s r = (Ok d, r) → getColumnReader s r' = (Ok d, r')).
Proof.
  intros Hnew Hnew'.
  pose proof (CSTableReader_new_Ok _ _ _ _ _ _ _ Hnew) as [Hlen _].
  assert (zip (cols ++ cols') (rds ++ rds') = (zip cols rds ++ zip cols' rds')%list)
    as Hzip by (by apply zip_with_app).
  assert (∀ s d, column_readers_by_name_ r !! s = Some d →
                 column_readers_by_name_ r' !! s = Some d) as Hnames.
  { intros s d. rewrite (by_name_lookup _ _ _ _ _ _ _ _ Hnew),
      (by_name_lookup _ _ _ _ _ _ _ _ Hnew'), Hzip, first_named_app.
    by intros ->. }
  split; [done|]. split.
  - intros k d. rewrite (by_id_lookup _ _ _ _ _ _ _ _ Hnew),
      (by_id_lookup _ _ _ _ _ _ _ _ Hnew'), Hzip, first_with_id_app.
    by intros ->.
  - intros s d. unfold getColumnReader.
    destruct (column_readers_by_name_ r !! s) as [d0|] eqn:Hs; [|done].
    intros [= ->]. by rewrite (Hnames s d Hs).
Qed.

Lemma appended_columns_keep_lookups_witness :
  ∃ r r',
    sample_new [col_id] [decoder_id] = Ok r ∧
    sample_new [col_id; col_id_again; col_nested]
      [decoder_id; decoder_id_again; decoder_nested] = Ok r' ∧
    getColumnReader "id" r = (Ok decoder_id, r) ∧
    getColumnReader "id" r' = (Ok decoder_id, r').
Proof.
  destruct (sample_new [col_id] [decoder_id]) as [r|e] eqn:Hnew;
    [|vm_compute in Hnew; discriminate].
  destruct (sample_new [col_id; col_id_again; col_nested]
              [decoder_id; decoder_id_again; decoder_nested]) as [r'|e] eqn:Hnew';
    [|vm_compute in Hnew'; discriminate].
  exists r, r'. do 2 (split; [reflexivity|]).
  assert (getColumnReader "id" r = (Ok decoder_id, r)) as Hget.
  { unfold getColumnReader. by rewrite (by_name_lookup _ _ _ _ _ _ _ _ Hnew). }
  split; [exact Hget|].
  exact (proj2 (proj2 (appended_columns_keep_lookups _ _ [col_id] [decoder_id] _ _ r
                         _ _ [col_id_again; col_nested]
                         [decoder_id_again; decoder_nested] _ _ r' Hnew Hnew'))
           "id" decoder_id Hget).
Defined.

(** ** What the queries read *)

(** X10: the answers of the six query methods depend on the column list, the
    name index and the row count only. Two readers that agree on these three
    members answer every sequence of calls alike, whatever their id index,
    version, page manager and descriptor are: no query reads the id index. *)
Theorem queries_read_three_members tags v1_type qs r r' :
  columns_ r = columns_ r' →
  column_readers_by_name_ r = column_readers_by_name_ r' →
  num_rows_ r = num_rows_ r' →
  (run_queries tags v1_type qs r).1 = (run_queries tags v1_type qs r').1.
Proof.
  intros Hcols Hnames Hrows. induction qs as [|q qs IH]; simpl; [done|].
  pose proof (run_query_frame tags v1_type q r) as Hq.
  pose proof (run_query_frame tags v1_type q r') as Hq'.
  assert ((run_query tags v1_type q r).1 = (run_query tags v1_type q r').1) as Ha.
  { destruct q as [s|s|s| |s|]; simpl;
      unfold getColumnEncoding, getColumnType, getColumnReader, columns,
        hasColumn, numRecords;
      rewrite ?Hcols, ?Hnames, ?Hrows; try reflexivity;
      by destruct (column_readers_by_name_ r' !! s). }
  destruct (run_query tags v1_type q r) as [a self].
  destruct (run_query tags v1_type q r') as [a' self'].
  simpl in *. subst self self' a'.
  destruct (run_queries tags v1_type qs r) as [answers self].
  destruct (run_queries tags v1_type qs r') as [answers' self'].
  simpl in *. by rewrite IH.
Qed.

Lemma queries_read_three_members_witness :
  ∃ r, sample_new sample_v2_columns [decoder_id; decoder_nested; decoder_anon] = Ok r ∧
       (run_queries sample_tags (λ _, 0%N) sample_queries r).1 =
       (run_queries sample_tags (λ _, 0%N) sample_queries
          {| version_ := v0_1_0; page_mgr_ := None; columns_ := columns_ r;
             column_readers_by_id_ := ∅;
             column_readers_by_name_ := column_readers_by_name_ r;
             num_rows_ := num_rows_ r; fd_ := (-1)%Z |}).1.
Proof.
  destruct (sample_new sample_v2_columns [decoder_id; decoder_nested; decoder_anon])
    as [r|e] eqn:Hnew; [|vm_compute in Hnew; discriminate].
  exists r. split; [reflexivity|].
  exact (queries_read_three_members sample_tags (λ _, 0%N) sample_queries r
           {| version_ := v0_1_0; page_mgr_ := None; columns_ := columns_ r;
              column_readers_by_id_ := ∅;
              column_readers_by_name_ := column_readers_by_name_ r;
              num_rows_ := num_rows_ r; fd_ := (-1)%Z |}
           eq_refl eq_refl eq_refl).
Defined.

(** ** The legacy layout and the recorded logical type *)

Lemma emplace_back_each_fmap {A B C : Type} (f : B → Res C) (h : A → B) l :
  emplace_back_each f (h <$> l) = emplace_back_each (λ x, f (h x)) l.
Proof.
  induction l as [|x l IH]; [done|]. csimpl. by rewrite IH.
Qed.

Lemma index_columns_relabel (h : ColumnConfig → ColumnConfig) cols rds by_id by_name :
  (∀ c, column_id (h c) = column_id c ∧ column_name (h c) = column_name c) →
  index_columns (zip (h <$> cols) rds) by_id by_name =
  index_columns (zip cols rds) by_id by_name.
Proof.
  intros Hh. revert rds by_id by_name.
  induction cols as [|c cols IH]; intros [|d rds] by_id by_name; csimpl; try done.
  destruct (Hh c) as [-> ->]. by rewrite IH.
Qed.

(** X11: the legacy layout never looks at the recorded logical type. Two
    v0_1_0 headers that differ in the logical types of their columns only
    either both fail to open, with the same error, or both open, and then the
    two readers have the same name index, the same id index and the same row
    count. *)
Theorem openFile_v1_ignores_logical_type tags File_openFile readHeader readHeader'
    filename file header metablock metablock' (retype : ColumnConfig → N) :
  File_openFile filename = Ok file →
  readHeader file = Ok (v0_1_0, header, metablock) →
  readHeader' file =
    Ok (v0_1_0,
        {| header_columns :=
             (λ c, with_logical_type (retype c) c) <$> header_columns header;
           header_num_rows := header_num_rows header |},
        metablock') →
  match openFile tags File_openFile readHeader filename,
        openFile tags File_openFile readHeader' filename with
  | Ok r, Ok r' =>
      column_readers_by_name_ r' = column_readers_by_name_ r ∧
      column_readers_by_id_ r' = column_readers_by_id_ r ∧
      numRecords r' = numRecords r ∧
      columns r' = (λ c, with_logical_type (retype c) c) <$> columns r
  | Raise e, Raise e' => e' = e
  | _, _ => False
  end.
Proof.
  intros Hfile Hhdr Hhdr'.
  rewrite (openFile_v1_unfold _ _ _ _ _ _ _ Hfile Hhdr),
    (openFile_v1_unfold _ _ _ _ _ _ _ Hfile Hhdr').
  simpl. rewrite emplace_back_each_fmap.
  change (λ x, reader ← openColumnV1 tags (with_logical_type (retype x) x)
                          {| mmap_file := file |};
               Ok (storeMmap {| mmap_file := file |} reader))
    with (λ x, reader ← openColumnV1 tags x {| mmap_file := file |};
               Ok (storeMmap {| mmap_file := file |} reader)).
  destruct (emplace_back_each _ (header_columns header)) as [rds|e]; simpl; [|done].
  unfold CSTableReader_new. rewrite length_fmap.
  case_decide; [|done]. simpl.
  rewrite index_columns_relabel by done. done.
Qed.

Lemma openFile_v1_ignores_logical_type_witness :
  ∃ r r',
    openFile sample_tags (sample_open sample_file)
      (sample_readHeader v0_1_0 [col_leb_uint; col_tags]) "t.cst" = Ok r ∧
    openFile sample_tags (sample_open sample_file)
      (sample_readHeader v0_1_0
         [with_logical_type 6 col_leb_uint; with_logical_type 6 col_tags])
      "t.cst" = Ok r' ∧
    column_readers_by_name_ r' = column_readers_by_name_ r.
Proof.
  pose proof (openFile_v1_ignores_logical_type sample_tags (sample_open sample_file)
                (sample_readHeader v0_1_0 [col_leb_uint; col_tags])
                (sample_readHeader v0_1_0
                   [with_logical_type 6 col_leb_uint; with_logical_type 6 col_tags])
                "t.cst" sample_file (sample_header [col_leb_uint; col_tags])
                sample_metablock sample_metablock (λ _, 6%N)
                eq_refl eq_refl eq_refl) as Hsame.
  destruct (openFile sample_tags (sample_open sample_file)
              (sample_readHeader v0_1_0 [col_leb_uint; col_tags]) "t.cst")
    as [r|e] eqn:Hopen; [|vm_compute in Hopen; discriminate].
  destruct (openFile sample_tags (sample_open sample_file)
              (sample_readHeader v0_1_0
                 [with_logical_type 6 col_leb_uint; with_logical_type 6 col_tags])
              "t.cst")
    as [r'|e] eqn:Hopen'; [|vm_compute in Hopen'; discriminate].
  exists r, r'. do 2 (split; [reflexivity|]). exact (proj1 Hsame).
Defined.

(** ** Shadowed columns *)

(** X12: in an opened v0_2_0 file, a column whose name was already declared
    by a different column before it cannot be reached through
    [getColumnReader]: no name resolves to the decoder built for it. *)
Theorem shadowed_column_unreachable tags File_openFile readHeader filename
    file header metablock r i j c0 c :
  File_openFile filename = Ok file →
  readHeader file = Ok (v0_2_0, header, metablock) →
  openFile tags File_openFile readHeader filename = Ok r →
  header_columns header !! j = Some c0 →
  (∀ j' c', (j' < j)%nat → header_columns header !! j' = Some c' →
            column_name c' ≠ column_name c0) →
  header_columns header !! i = Some c →
  column_name c = column_name c0 →
  c ≠ c0 →
  ∀ s, getColumnReader s r ≠
         (Ok (v2_decoder c {| pm_fd := fd file; pm_offset := 0 |}), r).
Proof.
  intros Hfile Hhdr Hopen Hc0 Hfirst Hc Hname Hne s Hget.
  apply openFile_Ok in Hopen
    as (file' & version' & header' & metablock' & rds & Hfile' & Hhdr' & Hr).
  rewrite Hfile in Hfile'. injection Hfile' as <-.
  rewrite Hhdr in Hhdr'. injection Hhdr' as <- <- <-.
  destruct Hr as [Hrds Hnew].
  unfold getColumnReader in Hget.
  destruct (column_readers_by_name_ r !! s) as [d|] eqn:Hs; [|done].
  injection Hget as ->.
  destruct (by_name_entry _ _ _ _ _ _ _ _ _ Hnew Hs) as (k & c' & Hc' & Hd & Hs').
  pose proof (Forall2_lookup_lr _ _ _ _ _ _ Hrds Hc' Hd) as Hcol.
  apply openColumnV2_Ok in Hcol as [_ [= <-]]. subst s.
  destruct (Forall2_lookup_l _ _ _ _ _ Hrds Hc0) as (d0 & Hd0 & Hcol0).
  apply openColumnV2_Ok in Hcol0 as [_ ->].
  pose proof (getColumnReader_first_named _ _ _ _ _ _ r j c0 _ Hnew Hc0 Hd0 Hfirst)
    as Hget0.
  unfold getColumnReader in Hget0. rewrite <- Hname, Hs in Hget0.
  injection Hget0 as Hcc. done.
Qed.

Lemma shadowed_column_unreachable_witness :
  ∃ r, openFile sample_tags (sample_open sample_file)
         (sample_readHeader v0_2_0 [col_id; col_id_again]) "t.cst" = Ok r ∧
       ∀ s, getColumnReader s r ≠ (Ok decoder_id_again, r).
Proof.
  destruct (openFile sample_tags (sample_open sample_file)
              (sample_readHeader v0_2_0 [col_id; col_id_again]) "t.cst")
    as [r|e] eqn:Hopen; [|vm_compute in Hopen; discriminate].
  exists r. split; [reflexivity|].
  apply (shadowed_column_unreachable sample_tags (sample_open sample_file)
           (sample_readHeader v0_2_0 [col_id; col_id_again]) "t.cst" sample_file
           (sample_header [col_id; col_id_again]) sample_metablock r
           1%nat 0%nat col_id col_id_again eq_refl eq_refl Hopen eq_refl).
  - intros j' c' Hj'. lia.
  - reflexivity.
  - reflexivity.
  - discriminate.
Defined.
